(** * usb_reset: a shallow embedding of [usb_reset.cpp]

    The program parses a [vendor_id:product_id] token, walks the device list
    that libusb reports, and resets the first device carrying that pair,
    optionally only when both of its string descriptors differ from the
    strings given on the command line.

    The embedding follows the source function by function.  C++ exceptions
    are values of type [exception]; a function that may throw returns
    [exception + A].  The calls into libusb and the lines written to
    [std::cout] are recorded, in program order, in a trace of [event]s, and
    the answers of libusb are read from a [Host] record that stands for the
    machine the program runs on. *)

From Stdlib Require Import ZArith List Bool Ascii String Lia.
From Stdlib Require Import DecimalString.
Import ListNotations.

Local Open Scope string_scope.
Local Open Scope list_scope.
Local Open Scope Z_scope.

(** ** Exceptions *)

(** The exception classes the program throws.  All of them derive from
    [std::exception], which is what [main] catches. *)
Inductive exception : Type :=
| runtime_error (msg : string)
| out_of_range (msg : string)
| UsbLibException (msg : string).

Definition what (e : exception) : string :=
  match e with
  | runtime_error m => m
  | out_of_range m => m
  | UsbLibException m => m
  end.

(** ** The C library's [strtoul]

    [strtoul] is not part of the repository; it is modelled after ISO C
    7.22.1.4 as glibc implements it.  A C string is the Rocq string of its
    characters before the terminating NUL; the end pointer is returned as an
    offset from the start of the string. *)
Module LibC.

Definition ULONG_MAX : Z := 2 ^ 64 - 1.

Definition code (c : ascii) : Z := Z.of_nat (nat_of_ascii c).

(** [isspace] in the "C" locale: space, and the controls \t \n \v \f \r. *)
Definition isspace (c : ascii) : bool :=
  (code c =? 32) || ((9 <=? code c) && (code c <=? 13)).

Definition isdigit (c : ascii) : bool :=
  (code "0" <=? code c) && (code c <=? code "9").

Definition isupper (c : ascii) : bool :=
  (code "A" <=? code c) && (code c <=? code "Z").

Definition islower (c : ascii) : bool :=
  (code "a" <=? code c) && (code c <=? code "z").

Definition toupper (c : ascii) : Z :=
  if islower c then code c - 32 else code c.

(** The value of [c] as a digit in base [base], when it is one. *)
Definition digit_value (base : Z) (c : ascii) : option Z :=
  let v :=
    if isdigit c then Some (code c - code "0")
    else if isupper c || islower c then Some (toupper c - code "A" + 10)
    else None in
  match v with
  | Some d => if d <? base then Some d else None
  | None => None
  end.

Fixpoint skip_spaces (s : string) : string * nat :=
  match s with
  | String c s' =>
      if isspace c then let (r, n) := skip_spaces s' in (r, S n) else (s, O)
  | EmptyString => (s, O)
  end.

(** The digit loop: the accumulated value and the number of characters
    consumed. *)
Fixpoint scan_digits (base : Z) (s : string) (acc : Z) : Z * nat :=
  match s with
  | String c s' =>
      match digit_value base c with
      | Some d => let (v, n) := scan_digits base s' (acc * base + d) in (v, S n)
      | None => (acc, O)
      end
  | EmptyString => (acc, O)
  end.

Definition is_x (c : ascii) : bool := toupper c =? code "X".

(** [strtoul nptr base] for [base] 16 (the only base the program uses; the
    prefix rule is the one of base 16).  Returns the converted value and
    the offset of [*endptr] in [nptr]. *)
Definition strtoul (nptr : string) (base : Z) : Z * nat :=
  let (s1, n_space) := skip_spaces nptr in
  let '(negative, s2, n_sign) :=
    match s1 with
    | String "-" r => (true, r, 1%nat)
    | String "+" r => (false, r, 1%nat)
    | _ => (false, s1, 0%nat)
    end in
  let '(s3, n_prefix) :=
    match s2 with
    | String "0" (String x r) =>
        if (base =? 16) && is_x x then (r, 2%nat) else (s2, 0%nat)
    | _ => (s2, 0%nat)
    end in
  let (v, n_digits) := scan_digits base s3 0 in
  match n_digits with
  | O =>
      (* no conversion: after a bare "0x" the end pointer is at the 'x' *)
      if (n_prefix =? 2)%nat then (0, (n_space + n_sign + 1)%nat) else (0, O)
  | S _ =>
      if v >? ULONG_MAX then (ULONG_MAX, (n_space + n_sign + n_prefix + n_digits)%nat)
      else ((if negative then (ULONG_MAX + 1 - v) mod (ULONG_MAX + 1) else v),
            (n_space + n_sign + n_prefix + n_digits)%nat)
  end.

End LibC.

(** ** parse_argv1 *)

Definition uint16_t (n : Z) : Z := n mod 65536.

(** [std::string::substr (pos, n)] for [pos <= size ()]. *)
Definition substr (s : string) (pos n : nat) : string := substring pos n s.

Definition FormatError : exception :=
  runtime_error "Please provide correct vendor_id:product_id pair.".
Definition InvalidVendorId : exception := runtime_error "Invalid vendor_id".
Definition InvalidProductId : exception := runtime_error "Invalid product_id".

Definition parse_argv1 (input : string) : exception + (Z * Z) :=
  if negb (length input =? 9)%nat
     || negb (match get 4 input with Some c => Ascii.eqb c ":" | None => false end)
  then inl FormatError
  else
    let s1 := substr input 0 4 in
    let s2 := substr input 5 4 in
    let (num1, ptr1) := LibC.strtoul s1 16 in
    if negb (ptr1 =? 4)%nat || (num1 >=? 65536) then inl InvalidVendorId
    else
      let (num2, ptr2) := LibC.strtoul s2 16 in
      if negb (ptr2 =? 4)%nat || (num2 >=? 65536) then inl InvalidProductId
      else inr (uint16_t num1, uint16_t num2).

(** ** The host: what libusb answers

    libusb is the external collaborator.  Each of its calls is a blocking,
    fallible call; what it answers on a given machine is recorded here. *)

Record libusb_device_descriptor : Type := {
  idVendor : Z;        (* uint16_t *)
  idProduct : Z;       (* uint16_t *)
  iManufacturer : Z;   (* uint8_t, index of the manufacturer string *)
  iProduct : Z         (* uint8_t, index of the product string *)
}.

Record libusb_device : Type := {
  (** return code of [libusb_get_device_descriptor] and the descriptor it
      stores *)
  device_descriptor : Z * libusb_device_descriptor;
  (** return code of [libusb_open] *)
  open_result : Z;
  (** answer to the [n]-th string request made on the handle (counted from
      0) for string index [idx]: [Some s] when the call stores the C string
      [s] into the caller's buffer, [None] when it fails and leaves the
      buffer as it was *)
  string_descriptor_ascii : nat -> Z -> option string;
  (** return code of [libusb_reset_device] *)
  reset_result : Z
}.

Inductive device_list_result : Type :=
| DeviceListOk (l : list libusb_device)   (* returns the number of devices *)
| DeviceListError (code : positive).      (* returns the negative code *)

Record Host : Type := {
  libusb_init : Z;
  libusb_get_device_list : device_list_result;
  (** what the automatic array [arr] of [reset] reads as, as a C string,
      before anything was stored into it *)
  uninitialised_arr : string
}.

(** ** Effects: traces and exceptions *)

Inductive event : Type :=
| call_libusb_init (rc : Z)
| call_libusb_exit
| call_libusb_get_device_list (cnt : Z)
| call_libusb_free_device_list
| call_libusb_get_device_descriptor (i : Z) (rc : Z)
| call_libusb_open (i : Z) (rc : Z)
| call_libusb_close (i : Z)
| call_libusb_get_string_descriptor_ascii (i : Z) (desc_index : Z)
| call_libusb_reset_device (i : Z) (rc : Z)
| cout (line : string).   (* one line written to std::cout, ended by endl *)

(** A computation yields the events it performed and either the exception
    that left it or its value. *)
Definition M (A : Type) : Type := list event * (exception + A).

Definition ret {A : Type} (a : A) : M A := ([], inr a).
Definition throw {A : Type} (e : exception) : M A := ([], inl e).
Definition emit (e : event) : M unit := ([e], inr tt).

Definition bind {A B : Type} (m : M A) (k : A -> M B) : M B :=
  match m with
  | (t, inl e) => (t, inl e)
  | (t, inr a) => let (t', r) := k a in (t ++ t', r)
  end.

Notation "x <- m ;; k" := (bind m (fun x => k))
  (at level 61, m at next level, right associativity).
Notation "m ;; k" := (bind m (fun _ => k))
  (at level 61, right associativity).

(** The scope of an automatic object: its destructor runs when the scope is
    left, by a return as well as by an exception passing through. *)
Definition scope {A : Type} (destructor : event) (body : M A) : M A :=
  let (t, r) := body in (t ++ [destructor], r).

Definition trace {A : Type} (m : M A) : list event := fst m.
Definition outcome {A : Type} (m : M A) : exception + A := snd m.

(** ** The RAII classes *)

Record DeviceList : Type := { cnt : Z; devs : list libusb_device }.

Definition DeviceList_ctor (h : Host) : M DeviceList :=
  let this :=
    match libusb_get_device_list h with
    | DeviceListOk l => {| cnt := Z.of_nat (List.length l); devs := l |}
    | DeviceListError c => {| cnt := Z.neg c; devs := [] |}
    end in
  emit (call_libusb_get_device_list (cnt this)) ;;
  if cnt this <? 0
  then throw (UsbLibException "Failed to get device list from libusb.")
  else ret this.

Definition DeviceList_size (this : DeviceList) : Z := cnt this.

(** [DeviceList::operator[]] *)
Definition DeviceList_at (this : DeviceList) (idx : Z) : M libusb_device :=
  if (idx <? 0) || (idx >=? cnt this)
  then throw (out_of_range "DeviceList: Index out of range.")
  else
    match nth_error (devs this) (Z.to_nat idx) with
    | Some d => ret d
    | None => throw (out_of_range "DeviceList: Index out of range.")
    end.

Definition UsbContext_ctor (h : Host) : M unit :=
  emit (call_libusb_init (libusb_init h)) ;;
  if negb (libusb_init h =? 0)
  then throw (UsbLibException "Failed to initialize libusb.")
  else ret tt.

Definition DeviceHandle_ctor (i : Z) (dev : libusb_device) : M unit :=
  let res := open_result dev in
  emit (call_libusb_open i res) ;;
  if negb (res =? 0)
  then throw (UsbLibException
                "Failed to get handle for usb device. Insufficient privilege?")
  else ret tt.

(** ** reset *)

(** [libusb_get_string_descriptor_ascii (hnd, idx, arr, 256)]: the content
    of [arr] after the call.  The program ignores the return code. *)
Definition libusb_get_string_descriptor_ascii
    (i : Z) (dev : libusb_device) (n : nat) (idx : Z) (arr : string) : M string :=
  emit (call_libusb_get_string_descriptor_ascii i idx) ;;
  ret (match string_descriptor_ascii dev n idx with
       | Some s => s
       | None => arr
       end).

Definition libusb_reset_device (i : Z) (dev : libusb_device) : M Z :=
  emit (call_libusb_reset_device i (reset_result dev)) ;;
  ret (reset_result dev).

(** [prod.size ()] as [operator<<] prints it. *)
Definition decimal (n : nat) : string := NilEmpty.string_of_uint (Nat.to_uint n).

Definition not_null (p : option string) : bool :=
  match p with Some _ => true | None => false end.

(** [s != p] for a [std::string] and a non-null [const char *]. *)
Definition string_ne (s : string) (p : option string) : bool :=
  match p with
  | Some c => negb (String.eqb s c)
  | None => false   (* never evaluated: guarded by the null tests *)
  end.

(** The condition of the [if] at the heart of [reset]. *)
Definition reset_condition (product manufacturer : option string)
    (prod manu : string) : bool :=
  (not_null product && not_null manufacturer && string_ne prod product
   && string_ne manu manufacturer)
  || (negb (not_null product) && negb (not_null manufacturer)).

Definition reset_warning : string :=
  "It seems the reset process did not end properly. You should check the device itself to see if it succeeded.".

(** The block entered for the device whose ids equal the requested pair. *)
Definition reset_matched (h : Host) (product manufacturer : option string)
    (i : Z) (dev : libusb_device) (desc : libusb_device_descriptor) : M unit :=
  DeviceHandle_ctor i dev ;;
  scope (call_libusb_close i)
    (arr <- libusb_get_string_descriptor_ascii i dev 0 (iProduct desc)
              (uninitialised_arr h) ;;
     let prod := arr in
     arr <- libusb_get_string_descriptor_ascii i dev 1 (iManufacturer desc) arr ;;
     let manu := arr in
     if reset_condition product manufacturer prod manu then
       emit (cout ("Product: " ++ prod ++ " (length: "
                     ++ decimal (String.length prod) ++ ")")%string) ;;
       emit (cout ("Manufacturer: " ++ manu ++ " (length: "
                     ++ decimal (String.length manu) ++ ")")%string) ;;
       emit (cout "Resetting this device ...") ;;
       rc <- libusb_reset_device i dev ;;
       (if negb (rc =? 0) then emit (cout reset_warning) else ret tt) ;;
       emit (cout "Finished.")
     else ret tt).

(** The [for] loop; [remaining] is [devs.size () - i], the number of
    iterations the loop condition still admits. *)
Fixpoint reset_loop (h : Host) (p : Z * Z) (product manufacturer : option string)
    (devs : DeviceList) (remaining : nat) (i : Z) : M unit :=
  match remaining with
  | O => emit (cout "No such USB device found.")
  | S remaining' =>
      dev <- DeviceList_at devs i ;;
      let (rc, desc) := device_descriptor dev in
      emit (call_libusb_get_device_descriptor i rc) ;;
      if negb (rc =? 0)
      then throw (UsbLibException "Failed to get device descriptor.")
      else if (idVendor desc =? fst p) && (idProduct desc =? snd p)
      then
        dev <- DeviceList_at devs i ;;   (* DeviceHandle hnd = devs[i] *)
        reset_matched h product manufacturer i dev desc
      else reset_loop h p product manufacturer devs remaining' (i + 1)
  end.

Definition reset (h : Host) (p : Z * Z) (product manufacturer : option string)
  : M unit :=
  UsbContext_ctor h ;;
  scope call_libusb_exit
    (devs <- DeviceList_ctor h ;;
     scope call_libusb_free_device_list
       (reset_loop h p product manufacturer devs
          (Z.to_nat (DeviceList_size devs)) 0)).

(** ** main *)

Definition newline : string := String (ascii_of_nat 10) EmptyString.
Definition dquote : string := String (ascii_of_nat 34) EmptyString.

Definition usage (argv0 : string) : string :=
  ("This program resets a specified USB device based on provided" ++ newline
  ++ "vendor_id:product_id pair. You can obtain this information using "
  ++ dquote ++ "lsusb" ++ dquote ++ newline
  ++ "command." ++ newline
  ++ "If you also provide the product name and manufacturer name, the program will do"
  ++ newline
  ++ "a comparison first and reset the device only if both of them do NOT match the"
  ++ newline
  ++ "strings returned by the device. (This is because a malfunctioning USB device"
  ++ newline
  ++ "that needs to be resetted usually does not return these strings correctly.)"
  ++ newline ++ newline ++ "Usage:" ++ newline ++ "    "
  ++ argv0 ++ " vendor_id:product_id [product_name manufacturer_name]")%string.

Definition lift {A : Type} (r : exception + A) : M A := ([], r).

(** The [try] block of [main] with its handler: the events and the value
    [main] returns. *)
Definition try_catch (body : M unit) : list event * Z :=
  match body with
  | (t, inl s) => (t ++ [cout "Error occured."; cout ("Detail: " ++ what s)%string], 1)
  | (t, inr _) => (t, 0)
  end.

(** [main]; [argv] is [argv0 :: args], so that [argc = 1 + length args]. *)
Definition main (h : Host) (argv0 : string) (args : list string) : list event * Z :=
  match args with
  | [a1] =>
      try_catch (p <- lift (parse_argv1 a1) ;; reset h p None None)
  | [a1; a2; a3] =>
      try_catch (p <- lift (parse_argv1 a1) ;; reset h p (Some a2) (Some a3))
  | _ => ([cout (usage argv0)], 0)
  end.

(** * The vocabulary of the properties *)

(** ** What a hexadecimal numeral denotes *)

(** The position of [c] in [s], counted from 0. *)
Fixpoint position (c : ascii) (s : string) : option nat :=
  match s with
  | EmptyString => None
  | String x s' =>
      if Ascii.eqb c x then Some O else option_map S (position c s')
  end.

(** A hexadecimal digit is worth its position among the sixteen digits,
    in lower or in upper case. *)
Definition hex_digit (c : ascii) : option Z :=
  match position c "0123456789abcdef", position c "0123456789ABCDEF" with
  | Some n, _ => Some (Z.of_nat n)
  | None, Some n => Some (Z.of_nat n)
  | None, None => None
  end.

(** The number a string of hexadecimal digits denotes, most significant
    digit first; [None] when some character is not a hexadecimal digit. *)
Fixpoint hex_number (s : string) : option Z :=
  match s with
  | EmptyString => Some 0
  | String c s' =>
      match hex_digit c, hex_number s' with
      | Some d, Some v => Some (d * 16 ^ Z.of_nat (String.length s') + v)
      | _, _ => None
      end
  end.

(** ** The snapshot as the scan sees it *)

Definition descriptor (d : libusb_device) : libusb_device_descriptor :=
  snd (device_descriptor d).

(** [libusb_get_device_descriptor] succeeds on [d]. *)
Definition readable (d : libusb_device) : bool := fst (device_descriptor d) =? 0.

(** The descriptor of [d] carries the pair [p]. *)
Definition has_ids (p : Z * Z) (d : libusb_device) : bool :=
  (idVendor (descriptor d) =? fst p) && (idProduct (descriptor d) =? snd p).

Definition passed_over (p : Z * Z) (d : libusb_device) : bool :=
  readable d && negb (has_ids p d).

Definition selected (p : Z * Z) (d : libusb_device) : bool :=
  readable d && has_ids p d.

(** [d] is the first device of [l] that carries [p]: the devices [pre]
    before it were read and carry another pair. *)
Definition first_match (p : Z * Z) (l pre : list libusb_device)
    (d : libusb_device) (post : list libusb_device) : Prop :=
  l = pre ++ d :: post
  /\ forallb (passed_over p) pre = true
  /\ selected p d = true.

(** The successful descriptor reads of the devices at [from], ...,
    [from + n - 1], in that order. *)
Definition descriptor_reads (from n : nat) : list event :=
  map (fun j => call_libusb_get_device_descriptor (Z.of_nat j) 0) (seq from n).

(** The strings [prod] and [manu] that [reset] builds for device [d].  A
    failed read leaves in the buffer what was there before. *)
Definition actual_product (h : Host) (d : libusb_device) : string :=
  match string_descriptor_ascii d 0 (iProduct (descriptor d)) with
  | Some s => s
  | None => uninitialised_arr h
  end.

Definition actual_manufacturer (h : Host) (d : libusb_device) : string :=
  match string_descriptor_ascii d 1 (iManufacturer (descriptor d)) with
  | Some s => s
  | None => actual_product h d
  end.

(** What is done to the opened device [d] at index [i] once the reset was
    decided. *)
Definition reset_events (h : Host) (i : Z) (d : libusb_device) : list event :=
  [cout ("Product: " ++ actual_product h d ++ " (length: "
           ++ decimal (String.length (actual_product h d)) ++ ")")%string;
   cout ("Manufacturer: " ++ actual_manufacturer h d ++ " (length: "
           ++ decimal (String.length (actual_manufacturer h d)) ++ ")")%string;
   cout "Resetting this device ...";
   call_libusb_reset_device i (reset_result d)]
  ++ (if reset_result d =? 0 then [] else [cout reset_warning])
  ++ [cout "Finished."].

(** ** The exceptions of the USB layer *)

Definition init_failed : exception :=
  UsbLibException "Failed to initialize libusb.".
Definition enumeration_failed : exception :=
  UsbLibException "Failed to get device list from libusb.".
Definition descriptor_failed : exception :=
  UsbLibException "Failed to get device descriptor.".
Definition open_failed : exception :=
  UsbLibException "Failed to get handle for usb device. Insufficient privilege?".

(** ** Reading a trace *)

Definition is_reset_call (e : event) : bool :=
  match e with call_libusb_reset_device _ _ => true | _ => false end.

(** A reset was attempted. *)
Definition resets (t : list event) : bool := existsb is_reset_call t.

(** The lines written to standard output. *)
Definition output (t : list event) : list string :=
  flat_map (fun e => match e with cout line => [line] | _ => [] end) t.

(** ** A run that reaches a matching device *)

(** The events up to and including the descriptor read of the selected
    device, the one behind [pre]. *)
Definition scan_events (l pre : list libusb_device) : list event :=
  [call_libusb_init 0; call_libusb_get_device_list (Z.of_nat (List.length l))]
  ++ descriptor_reads 0 (S (List.length pre)).

(** Opening the selected device and reading its two strings. *)
Definition inspect_events (i : Z) (d : libusb_device) : list event :=
  [call_libusb_open i 0;
   call_libusb_get_string_descriptor_ascii i (iProduct (descriptor d));
   call_libusb_get_string_descriptor_ascii i (iManufacturer (descriptor d))].

(** ** Concrete machines *)

Module Examples.

Definition keyboard : libusb_device := {|
  device_descriptor :=
    (0, {| idVendor := 0x413c; idProduct := 0x2003;
           iManufacturer := 1; iProduct := 2 |});
  open_result := 0;
  string_descriptor_ascii := fun _ idx =>
    if idx =? 2 then Some "Dell USB Keyboard"
    else if idx =? 1 then Some "Dell" else None;
  reset_result := 0
|}.

(** A keyboard that no longer answers string requests and whose reset
    reports [LIBUSB_ERROR_NOT_FOUND]. *)
Definition wedged_keyboard : libusb_device := {|
  device_descriptor := device_descriptor keyboard;
  open_result := 0;
  string_descriptor_ascii := fun _ _ => None;
  reset_result := -5
|}.

(** A root hub that an unprivileged process may not open
    ([LIBUSB_ERROR_ACCESS]). *)
Definition hub : libusb_device := {|
  device_descriptor :=
    (0, {| idVendor := 0x1d6b; idProduct := 2;
           iManufacturer := 3; iProduct := 2 |});
  open_result := -3;
  string_descriptor_ascii := fun _ _ => None;
  reset_result := 0
|}.

Definition pc : Host := {|
  libusb_init := 0;
  libusb_get_device_list := DeviceListOk [hub; keyboard; wedged_keyboard];
  uninitialised_arr := "??"
|}.

Definition pc_wedged : Host := {|
  libusb_init := 0;
  libusb_get_device_list := DeviceListOk [hub; wedged_keyboard; keyboard];
  uninitialised_arr := ""
|}.

End Examples.

(** ** Command lines *)

(** The arguments of [main] after the program name: the identifier [a]
    and, in conditional mode, the two expected strings. *)
Definition command_line (a : string) (expected : option (string * string))
  : list string :=
  match expected with
  | None => [a]
  | Some (product, manufacturer) => [a; product; manufacturer]
  end.

Definition expected_product (expected : option (string * string)) : option string :=
  option_map fst expected.
Definition expected_manufacturer (expected : option (string * string))
  : option string :=
  option_map snd expected.

(** Exactly one of the two expected strings is supplied. *)
Definition exactly_one (product manufacturer : option string) : bool :=
  xorb (not_null product) (not_null manufacturer).

(** ** Fatal errors *)

Definition diagnostic (e : exception) : list event :=
  [cout "Error occured."; cout ("Detail: " ++ what e)%string].


(** ** Release order *)

Inductive resource : Type :=
| Session                (* the libusb context *)
| Snapshot               (* the device list *)
| Handle (i : Z).        (* the handle opened on device [i] *)

(** [released_in_reverse held t]: starting with the resources [held], most
    recent first, every release in [t] gives back the most recently
    acquired resource that is still held, and when [t] ends nothing is
    held. *)
Fixpoint released_in_reverse (held : list resource) (t : list event) : bool :=
  match t with
  | [] => match held with [] => true | _ :: _ => false end
  | call_libusb_init rc :: t' =>
      released_in_reverse (if rc =? 0 then Session :: held else held) t'
  | call_libusb_get_device_list n :: t' =>
      released_in_reverse (if n <? 0 then held else Snapshot :: held) t'
  | call_libusb_open i rc :: t' =>
      released_in_reverse (if rc =? 0 then Handle i :: held else held) t'
  | call_libusb_close i :: t' =>
      match held with
      | Handle j :: held' => (i =? j) && released_in_reverse held' t'
      | _ => false
      end
  | call_libusb_free_device_list :: t' =>
      match held with
      | Snapshot :: held' => released_in_reverse held' t'
      | _ => false
      end
  | call_libusb_exit :: t' =>
      match held with
      | Session :: held' => released_in_reverse held' t'
      | _ => false
      end
  | _ :: t' => released_in_reverse held t'
  end.

(** The events that neither acquire nor release. *)
Definition keeps_resources (e : event) : bool :=
  match e with
  | call_libusb_get_device_descriptor _ _
  | call_libusb_get_string_descriptor_ascii _ _
  | call_libusb_reset_device _ _
  | cout _ => true
  | _ => false
  end.

Definition is_release (e : event) : bool :=
  match e with
  | call_libusb_close _ | call_libusb_free_device_list | call_libusb_exit => true
  | _ => false
  end.

(** The releases of a trace, in the order they happen. *)
Definition releases (t : list event) : list event := filter is_release t.

(** The four shapes the releases of a run can take. *)
Definition reverse_order (rel : list event) : Prop :=
  rel = []
  \/ rel = [call_libusb_exit]
  \/ rel = [call_libusb_free_device_list; call_libusb_exit]
  \/ exists i, rel = [call_libusb_close i; call_libusb_free_device_list;
                      call_libusb_exit].

(** ** The matcher *)

(** The device an event is about. *)
Definition touched (e : event) : option Z :=
  match e with
  | call_libusb_get_device_descriptor i _
  | call_libusb_open i _
  | call_libusb_close i
  | call_libusb_get_string_descriptor_ascii i _
  | call_libusb_reset_device i _ => Some i
  | _ => None
  end.

(** The devices a run is about, event by event. *)
Definition examined (t : list event) : list Z :=
  flat_map (fun e => match touched e with Some i => [i] | None => [] end) t.

(** The devices whose descriptor was requested, in the order of the
    requests. *)
Definition descriptors_read (t : list event) : list Z :=
  flat_map (fun e => match e with
                     | call_libusb_get_device_descriptor i _ => [i]
                     | _ => []
                     end) t.

(** The devices a handle was requested for. *)
Definition opened (t : list event) : list Z :=
  flat_map (fun e => match e with call_libusb_open i _ => [i] | _ => [] end) t.

Definition indices (from n : nat) : list Z := map Z.of_nat (seq from n).

(** ** Further vocabulary: the parser *)

(** The characters [strtoul] can take for part of a base-16 numeral:
    hexadecimal digits, white space, a sign, and the [x] of a prefix. *)
Definition tolerated (c : ascii) : bool :=
  match hex_digit c with
  | Some _ => true
  | None =>
      LibC.isspace c || LibC.is_x c || Ascii.eqb c "-" || Ascii.eqb c "+"
  end.

(** The first [n] characters of [s] exist and are tolerated. *)
Fixpoint prefix_tolerated (n : nat) (s : string) : bool :=
  match n with
  | O => true
  | S n' =>
      match s with
      | EmptyString => false
      | String c s' => tolerated c && prefix_tolerated n' s'
      end
  end.

(** The lower-case hexadecimal digit worth [d]. *)
Definition hex_char (d : Z) : ascii :=
  match get (Z.to_nat d) "0123456789abcdef" with
  | Some c => c
  | None => "0"%char
  end.

(** A 16-bit number in four hexadecimal digits, as [lsusb] prints it. *)
Definition hex4 (v : Z) : string :=
  String (hex_char (v / 4096))
    (String (hex_char (v / 256 mod 16))
       (String (hex_char (v / 16 mod 16))
          (String (hex_char (v mod 16)) EmptyString))).

Definition format_id (vendor product : Z) : string :=
  (hex4 vendor ++ ":" ++ hex4 product)%string.

(** ** Further vocabulary: traces *)

Definition is_cout (e : event) : bool :=
  match e with cout _ => true | _ => false end.

Definition resource_eqb (r1 r2 : resource) : bool :=
  match r1, r2 with
  | Session, Session => true
  | Snapshot, Snapshot => true
  | Handle i, Handle j => i =? j
  | _, _ => false
  end.

Definition holds (r : resource) (held : list resource) : bool :=
  existsb (resource_eqb r) held.

(** [used_while_held held t]: every libusb call of [t] is made while the
    resource it works on is held: the session is initialised once, the
    device list is asked of a live session, descriptors are read and
    handles opened on devices of a live list, strings are read and the
    reset issued through a live handle on the same device, and only the
    most recent resource is released. *)
Fixpoint used_while_held (held : list resource) (t : list event) : bool :=
  match t with
  | [] => true
  | call_libusb_init rc :: t' =>
      match held with
      | [] => used_while_held (if rc =? 0 then [Session] else []) t'
      | _ :: _ => false
      end
  | call_libusb_get_device_list n :: t' =>
      holds Session held
      && used_while_held (if n <? 0 then held else Snapshot :: held) t'
  | call_libusb_get_device_descriptor _ _ :: t' =>
      holds Snapshot held && used_while_held held t'
  | call_libusb_open i rc :: t' =>
      holds Snapshot held
      && used_while_held (if rc =? 0 then Handle i :: held else held) t'
  | call_libusb_get_string_descriptor_ascii i _ :: t' =>
      holds (Handle i) held && used_while_held held t'
  | call_libusb_reset_device i _ :: t' =>
      holds (Handle i) held && used_while_held held t'
  | call_libusb_close i :: t' =>
      match held with
      | Handle j :: held' => (i =? j) && used_while_held held' t'
      | _ => false
      end
  | call_libusb_free_device_list :: t' =>
      match held with
      | Snapshot :: held' => used_while_held held' t'
      | _ => false
      end
  | call_libusb_exit :: t' =>
      match held with
      | Session :: held' => used_while_held held' t'
      | _ => false
      end
  | cout _ :: t' => used_while_held held t'
  end.

(** The messages of the exceptions the program can end on. *)
Definition fatal_messages : list string :=
  map what [FormatError; InvalidVendorId; InvalidProductId;
            init_failed; enumeration_failed; descriptor_failed; open_failed].

(** The number of devices of the snapshot, 0 when there is none. *)
Definition device_count (h : Host) : nat :=
  match libusb_get_device_list h with
  | DeviceListOk l => List.length l
  | DeviceListError _ => O
  end.

(** * Properties of the identifier parser *)

Section Strtoul.

Import LibC.

Lemma digit_value_16 (c : ascii) : digit_value 16 c = hex_digit c.
Proof.
  destruct c as [[] [] [] [] [] [] [] []]; reflexivity.
Qed.

Lemma hex_digit_range (c : ascii) (d : Z) :
  hex_digit c = Some d -> 0 <= d < 16.
Proof.
  destruct c as [[] [] [] [] [] [] [] []]; intros H; vm_compute in H;
    inversion H; lia.
Qed.

Lemma hex_digit_plain (c : ascii) (d : Z) :
  hex_digit c = Some d ->
  isspace c = false /\ is_x c = false /\ c <> "-"%char /\ c <> "+"%char.
Proof.
  destruct c as [[] [] [] [] [] [] [] []]; intros H; vm_compute in H;
    try discriminate H; repeat split; try reflexivity; discriminate.
Qed.

Lemma hex_number_range (s : string) (v : Z) :
  hex_number s = Some v -> 0 <= v < 16 ^ Z.of_nat (String.length s).
Proof.
  revert v; induction s as [|c s IH]; cbn [hex_number String.length];
    intros v H.
  - inversion H; simpl; lia.
  - destruct (hex_digit c) as [d|] eqn:Hd; [|discriminate].
    destruct (hex_number s) as [w|]; [|discriminate].
    inversion H; subst v; clear H.
    apply hex_digit_range in Hd.
    specialize (IH w eq_refl).
    rewrite Nat2Z.inj_succ, Z.pow_succ_r by lia.
    nia.
Qed.

(** The digit loop computes the denoted number by Horner's rule. *)
Lemma scan_digits_hex (s : string) (v acc : Z) :
  hex_number s = Some v ->
  scan_digits 16 s acc
  = (acc * 16 ^ Z.of_nat (String.length s) + v, String.length s).
Proof.
  revert v acc; induction s as [|c s IH];
    cbn [hex_number String.length scan_digits]; intros v acc H.
  - inversion H. f_equal. simpl. lia.
  - rewrite digit_value_16.
    destruct (hex_digit c) as [d|] eqn:Hd; [|discriminate].
    destruct (hex_number s) as [w|] eqn:Hw; [|discriminate].
    inversion H; subst v; clear H.
    rewrite (IH w (acc * 16 + d) eq_refl).
    f_equal.
    rewrite Nat2Z.inj_succ, Z.pow_succ_r by lia. ring.
Qed.

(** On a non-empty string of hexadecimal digits that fits an
    [unsigned long], [strtoul] converts the whole string. *)
Lemma strtoul_hex (c : ascii) (s : string) (v : Z) :
  hex_number (String c s) = Some v ->
  v <= ULONG_MAX ->
  strtoul (String c s) 16 = (v, S (String.length s)).
Proof.
  intros H Hmax.
  pose proof (scan_digits_hex _ _ 0 H) as Hscan.
  simpl in H.
  destruct (hex_digit c) as [d|] eqn:Hd; [|discriminate].
  destruct (hex_number s) as [w|] eqn:Hw; [|discriminate].
  destruct (hex_digit_plain _ _ Hd) as (Hsp & _ & Hminus & Hplus).
  assert (Hx : match s with
               | String x _ => is_x x = false
               | EmptyString => True
               end).
  { destruct s as [|x r]; [exact I|].
    simpl in Hw. destruct (hex_digit x) as [dx|] eqn:Hdx; [|discriminate].
    apply (hex_digit_plain _ _ Hdx). }
  unfold strtoul.
  cbn [skip_spaces]. rewrite Hsp.
  assert (Hsign :
    match String c s with
    | String "-" r => (true, r, 1%nat)
    | String "+" r => (false, r, 1%nat)
    | _ => (false, String c s, 0%nat)
    end = (false, String c s, 0%nat)).
  { destruct c as [[] [] [] [] [] [] [] []]; try reflexivity;
      exfalso; auto. }
  rewrite Hsign.
  assert (Hprefix :
    match String c s with
    | String "0" (String x r) =>
        if (16 =? 16) && is_x x then (r, 2%nat) else (String c s, 0%nat)
    | _ => (String c s, 0%nat)
    end = (String c s, 0%nat)).
  { destruct s as [|x r].
    - destruct c as [[] [] [] [] [] [] [] []]; reflexivity.
    - rewrite Hx. destruct c as [[] [] [] [] [] [] [] []]; reflexivity. }
  rewrite Hprefix, Hscan.
  cbn [String.length].
  replace (0 * 16 ^ Z.of_nat (S (String.length s)) + v) with v by lia.
  destruct (v >? ULONG_MAX) eqn:Hgt; [lia|].
  reflexivity.
Qed.

End Strtoul.

(** The two halves of a nine-character string. *)
Lemma substring_length_le (s : string) (n m : nat) :
  (n + m <= String.length s)%nat -> String.length (substring n m s) = m.
Proof.
  revert n m; induction s as [|c s IH]; intros [|n] [|m]; simpl; intros H;
    try reflexivity; try lia.
  - rewrite IH; [reflexivity|lia].
  - apply IH. lia.
  - apply IH. lia.
Qed.

Lemma hex_half (s : string) (v : Z) :
  String.length s = 4%nat -> hex_number s = Some v ->
  LibC.strtoul s 16 = (v, 4%nat) /\ 0 <= v < 65536.
Proof.
  intros Hlen Hv.
  pose proof (hex_number_range _ _ Hv) as Hr.
  rewrite Hlen in Hr. change (16 ^ Z.of_nat 4) with 65536 in Hr.
  split; [|exact Hr].
  destruct s as [|c s]; [discriminate Hlen|].
  rewrite (strtoul_hex c s v Hv).
  - simpl in Hlen. injection Hlen as Hlen. rewrite Hlen. reflexivity.
  - unfold LibC.ULONG_MAX. lia.
Qed.

(** C3. Every nine-character string made of four hexadecimal digits, a colon
    at offset 4 and four more hexadecimal digits is accepted, and the pair
    returned holds the numbers its two halves denote, each below 65536. *)
Theorem parse_argv1_well_formed (input : string) (vendor product : Z) :
  String.length input = 9%nat ->
  get 4 input = Some ":"%char ->
  hex_number (substring 0 4 input) = Some vendor ->
  hex_number (substring 5 4 input) = Some product ->
  parse_argv1 input = inr (vendor, product)
  /\ 0 <= vendor < 65536 /\ 0 <= product < 65536.
Proof.
  intros Hlen Hcolon Hv Hp.
  destruct (hex_half (substring 0 4 input) vendor) as [Hs1 Hr1];
    [apply substring_length_le; lia | exact Hv |].
  destruct (hex_half (substring 5 4 input) product) as [Hs2 Hr2];
    [apply substring_length_le; lia | exact Hp |].
  split; [|split; assumption].
  unfold parse_argv1, substr.
  rewrite Hlen, Hcolon, Hs1, Hs2. cbn [Nat.eqb Ascii.eqb negb orb].
  simpl.
  destruct (vendor >=? 65536) eqn:H1; [lia|].
  destruct (product >=? 65536) eqn:H2; [lia|].
  unfold uint16_t. rewrite !Z.mod_small by lia. reflexivity.
Qed.

Lemma parse_argv1_well_formed_witness :
  parse_argv1 "413c:2003" = inr (0x413c, 0x2003)
  /\ 0 <= 0x413c < 65536 /\ 0 <= 0x2003 < 65536.
Proof.
  apply (parse_argv1_well_formed "413c:2003" 0x413c 0x2003); reflexivity.
Defined.

(** A violation of the length or of the colon is a format error. *)
Lemma parse_argv1_format_error (input : string) :
  String.length input <> 9%nat \/ get 4 input <> Some ":"%char ->
  parse_argv1 input = inl FormatError.
Proof.
  intros H. unfold parse_argv1.
  destruct (String.length input =? 9)%nat eqn:Hlen; [|reflexivity].
  apply Nat.eqb_eq in Hlen.
  destruct H as [H|H]; [contradiction|].
  destruct (get 4 input) as [c|]; [|reflexivity].
  destruct (Ascii.eqb c ":") eqn:Hc; [|reflexivity].
  apply Ascii.eqb_eq in Hc. subst c. contradiction.
Qed.

(** Rejections the parser does perform: one per error kind, and a half
    that [strtoul] converts to a value of 65536 or more. *)
Lemma parse_argv1_rejections :
  parse_argv1 "413c2003" = inl FormatError
  /\ parse_argv1 "413c-2003" = inl FormatError
  /\ parse_argv1 "41g3:2003" = inl InvalidVendorId
  /\ parse_argv1 "-001:2003" = inl InvalidVendorId
  /\ parse_argv1 "413c:20 3" = inl InvalidProductId
  /\ parse_argv1 "413c:0x2g" = inl InvalidProductId.
Proof.
  repeat split; reflexivity.
Qed.

(** C4. The first half of ["0x1f:2003"] holds the character [x], which is
    not a hexadecimal digit, and yet the parser accepts the string:
    [strtoul] takes the prefix [0x] for part of the numeral.  The same holds
    of a leading sign and of leading white space. *)
Theorem parse_argv1_accepts_prefixed_half :
  hex_number (substring 0 4 "0x1f:2003") = None
  /\ parse_argv1 "0x1f:2003" = inr (0x1f, 0x2003)
  /\ parse_argv1 "+413:2003" = inr (0x413, 0x2003)
  /\ parse_argv1 "-000:2003" = inr (0, 0x2003)
  /\ parse_argv1 "413c: 203" = inr (0x413c, 0x203).
Proof.
  repeat split; reflexivity.
Qed.

(** * Properties of the reset pipeline *)

(** Boolean comparisons on [Z] in the hypotheses, as propositions. *)
Ltac Zbool :=
  repeat match goal with
    | H : (_ >=? _) = _ |- _ => rewrite Z.geb_leb in H
    | H : (_ >? _) = _ |- _ => rewrite Z.gtb_ltb in H
    | H : (_ <? _) = true |- _ => apply Z.ltb_lt in H
    | H : (_ <? _) = false |- _ => apply Z.ltb_ge in H
    | H : (_ <=? _) = true |- _ => apply Z.leb_le in H
    | H : (_ <=? _) = false |- _ => apply Z.leb_gt in H
    | H : (_ =? _) = true |- _ => apply Z.eqb_eq in H
    | H : (_ =? _) = false |- _ => apply Z.eqb_neq in H
    end.

(** ** Laws of the effect *)

Lemma bind_ret {A B : Type} (a : A) (k : A -> M B) : (x <- ret a ;; k x) = k a.
Proof. unfold bind, ret. destruct (k a). reflexivity. Qed.

Lemma bind_throw {A B : Type} (e : exception) (k : A -> M B) :
  (x <- throw e ;; k x) = throw e.
Proof. reflexivity. Qed.

Lemma bind_emit {B : Type} (e : event) (k : unit -> M B) :
  (x <- emit e ;; k x) = (e :: trace (k tt), outcome (k tt)).
Proof. unfold bind, emit. destruct (k tt). reflexivity. Qed.

Lemma bind_lift_inr {A B : Type} (a : A) (k : A -> M B) :
  (x <- lift (inr a) ;; k x) = k a.
Proof. unfold bind, lift. destruct (k a). reflexivity. Qed.

Lemma surjective_M {A : Type} (m : M A) : m = (trace m, outcome m).
Proof. destruct m. reflexivity. Qed.

(** ** The matched block *)

Lemma reset_matched_open_failed h product manufacturer i d :
  open_result d <> 0 ->
  reset_matched h product manufacturer i d (descriptor d)
  = ([call_libusb_open i (open_result d)],
     inl (UsbLibException
            "Failed to get handle for usb device. Insufficient privilege?")).
Proof.
  intros Hopen. unfold reset_matched, DeviceHandle_ctor.
  apply Z.eqb_neq in Hopen. rewrite Hopen. reflexivity.
Qed.

Lemma reset_matched_opened h product manufacturer i d :
  open_result d = 0 ->
  reset_matched h product manufacturer i d (descriptor d)
  = ([call_libusb_open i 0;
      call_libusb_get_string_descriptor_ascii i (iProduct (descriptor d));
      call_libusb_get_string_descriptor_ascii i (iManufacturer (descriptor d))]
     ++ (if reset_condition product manufacturer
              (actual_product h d) (actual_manufacturer h d)
         then reset_events h i d else [])
     ++ [call_libusb_close i],
     inr tt).
Proof.
  intros Hopen.
  unfold reset_matched, DeviceHandle_ctor, reset_events,
    libusb_get_string_descriptor_ascii, libusb_reset_device.
  rewrite Hopen. cbn [Z.eqb negb].
  fold (actual_product h d).
  unfold actual_manufacturer.
  destruct (string_descriptor_ascii d 1 (iManufacturer (descriptor d)));
    unfold bind, emit, ret, scope; cbn [app];
    destruct (reset_condition product manufacturer _ _);
    destruct (reset_result d =? 0); reflexivity.
Qed.

(** ** The loop *)

Section Loop.

Variables (h : Host) (p : Z * Z) (product manufacturer : option string).
Variable dl : DeviceList.
Hypothesis cnt_devs : cnt dl = Z.of_nat (List.length (devs dl)).

Lemma DeviceList_at_in_range l0 d rest :
  devs dl = l0 ++ d :: rest ->
  DeviceList_at dl (Z.of_nat (List.length l0)) = ret d.
Proof.
  intros Hdevs. unfold DeviceList_at.
  rewrite cnt_devs, Hdevs, length_app. cbn [List.length].
  destruct (Z.of_nat (List.length l0) <? 0) eqn:H1; [Zbool; lia|].
  destruct (Z.of_nat (List.length l0)
            >=? Z.of_nat (List.length l0 + S (List.length rest))) eqn:H2;
    [Zbool; lia|].
  cbn [orb]. rewrite Nat2Z.id, nth_error_app2, Nat.sub_diag by lia.
  reflexivity.
Qed.

Local Abbreviation loop := (reset_loop h p product manufacturer dl).

(** One iteration, on a device in range. *)
Lemma reset_loop_step l0 d rest n :
  devs dl = l0 ++ d :: rest ->
  loop (S n) (Z.of_nat (List.length l0))
  = (call_libusb_get_device_descriptor (Z.of_nat (List.length l0))
       (fst (device_descriptor d))
     :: trace (if negb (readable d)
               then throw (UsbLibException "Failed to get device descriptor.")
               else if has_ids p d
               then reset_matched h product manufacturer
                      (Z.of_nat (List.length l0)) d (descriptor d)
               else loop n (Z.of_nat (List.length (l0 ++ [d])))),
     outcome (if negb (readable d)
              then throw (UsbLibException "Failed to get device descriptor.")
              else if has_ids p d
              then reset_matched h product manufacturer
                     (Z.of_nat (List.length l0)) d (descriptor d)
              else loop n (Z.of_nat (List.length (l0 ++ [d]))))).
Proof.
  intros Hdevs. cbn [reset_loop].
  rewrite (DeviceList_at_in_range _ _ _ Hdevs), bind_ret.
  unfold readable, has_ids, descriptor.
  destruct (device_descriptor d) as [rc desc]. cbn [fst snd].
  rewrite bind_emit, bind_ret.
  replace (Z.of_nat (List.length (l0 ++ [d])))
    with (Z.of_nat (List.length l0) + 1)
    by (rewrite length_app; simpl; lia).
  reflexivity.
Qed.

(** The loop reads the descriptors of a passed-over stretch in order and
    goes on behind it. *)
Lemma reset_loop_passes pre : forall l0 rest n,
  devs dl = l0 ++ pre ++ rest ->
  forallb (passed_over p) pre = true ->
  loop (List.length pre + n) (Z.of_nat (List.length l0))
  = (descriptor_reads (List.length l0) (List.length pre)
     ++ trace (loop n (Z.of_nat (List.length (l0 ++ pre)))),
     outcome (loop n (Z.of_nat (List.length (l0 ++ pre))))).
Proof.
  induction pre as [|a pre IH]; intros l0 rest n Hdevs Hpre.
  - rewrite app_nil_r. cbn. apply surjective_M.
  - cbn [forallb] in Hpre. apply andb_prop in Hpre as [Ha Hpre].
    unfold passed_over in Ha. apply andb_prop in Ha as [Hr Hids].
    apply negb_true_iff in Hids.
    cbn [List.length Nat.add].
    rewrite (reset_loop_step l0 a (pre ++ rest) _ Hdevs).
    rewrite Hr, Hids. cbn [negb].
    assert (Hdevs' : devs dl = (l0 ++ [a]) ++ pre ++ rest)
      by (rewrite <- app_assoc; exact Hdevs).
    rewrite (IH _ _ n Hdevs' Hpre). cbn [trace outcome fst snd].
    unfold readable in Hr. apply Z.eqb_eq in Hr. rewrite Hr.
    replace ((l0 ++ [a]) ++ pre) with (l0 ++ a :: pre)
      by (rewrite <- app_assoc; reflexivity).
    unfold descriptor_reads. cbn [seq map].
    replace (List.length (l0 ++ [a])) with (S (List.length l0))
      by (rewrite length_app; simpl; lia).
    reflexivity.
Qed.

End Loop.

(** ** The five ways [reset] ends *)

Section Reset.

Variables (h : Host) (p : Z * Z) (product manufacturer : option string).

Lemma reset_init_failed :
  libusb_init h <> 0 ->
  reset h p product manufacturer
  = ([call_libusb_init (libusb_init h)], inl init_failed).
Proof.
  intros Hinit. unfold reset, UsbContext_ctor.
  apply Z.eqb_neq in Hinit. rewrite Hinit. reflexivity.
Qed.

Lemma reset_enumeration_failed code :
  libusb_init h = 0 ->
  libusb_get_device_list h = DeviceListError code ->
  reset h p product manufacturer
  = ([call_libusb_init 0; call_libusb_get_device_list (Z.neg code);
      call_libusb_exit],
     inl enumeration_failed).
Proof.
  intros Hinit Hlist. unfold reset, UsbContext_ctor, DeviceList_ctor.
  rewrite Hinit, Hlist. reflexivity.
Qed.

(** With a session and a snapshot, [reset] is the loop between the two
    acquisitions and the two releases. *)
Lemma reset_enumerated l :
  libusb_init h = 0 ->
  libusb_get_device_list h = DeviceListOk l ->
  reset h p product manufacturer
  = ([call_libusb_init 0;
      call_libusb_get_device_list (Z.of_nat (List.length l))]
     ++ trace (reset_loop h p product manufacturer
                 {| cnt := Z.of_nat (List.length l); devs := l |}
                 (List.length l) 0)
     ++ [call_libusb_free_device_list; call_libusb_exit],
     outcome (reset_loop h p product manufacturer
                {| cnt := Z.of_nat (List.length l); devs := l |}
                (List.length l) 0)).
Proof.
  intros Hinit Hlist. unfold reset, UsbContext_ctor, DeviceList_ctor.
  rewrite Hinit, Hlist. cbn [Z.eqb negb cnt DeviceList_size].
  destruct (Z.of_nat (List.length l) <? 0) eqn:Hneg; [Zbool; lia|].
  unfold bind, emit, ret, scope. cbn [app DeviceList_size cnt].
  rewrite Nat2Z.id.
  destruct (reset_loop _ _ _ _ _ _ _) as [t r].
  cbn [app trace outcome fst snd].
  rewrite <- app_assoc. reflexivity.
Qed.

(** The scan up to the first device that is not passed over. *)
Lemma reset_scanned pre rest :
  libusb_init h = 0 ->
  libusb_get_device_list h = DeviceListOk (pre ++ rest) ->
  forallb (passed_over p) pre = true ->
  reset h p product manufacturer
  = ([call_libusb_init 0;
      call_libusb_get_device_list (Z.of_nat (List.length (pre ++ rest)))]
     ++ descriptor_reads 0 (List.length pre)
     ++ trace (reset_loop h p product manufacturer
                 {| cnt := Z.of_nat (List.length (pre ++ rest));
                    devs := pre ++ rest |}
                 (List.length rest) (Z.of_nat (List.length pre)))
     ++ [call_libusb_free_device_list; call_libusb_exit],
     outcome (reset_loop h p product manufacturer
                {| cnt := Z.of_nat (List.length (pre ++ rest));
                   devs := pre ++ rest |}
                (List.length rest) (Z.of_nat (List.length pre)))).
Proof.
  intros Hinit Hlist Hpre.
  rewrite (reset_enumerated _ Hinit Hlist).
  pose proof (reset_loop_passes h p product manufacturer
                {| cnt := Z.of_nat (List.length (pre ++ rest));
                   devs := pre ++ rest |} eq_refl
                pre [] rest (List.length rest) eq_refl Hpre) as Hloop.
  rewrite <- length_app in Hloop.
  cbn [List.length app] in Hloop. simpl (Z.of_nat 0) in Hloop.
  rewrite Hloop.
  cbn [trace outcome fst snd app].
  rewrite <- app_assoc. reflexivity.
Qed.

Lemma reset_not_found l :
  libusb_init h = 0 ->
  libusb_get_device_list h = DeviceListOk l ->
  forallb (passed_over p) l = true ->
  reset h p product manufacturer
  = ([call_libusb_init 0;
      call_libusb_get_device_list (Z.of_nat (List.length l))]
     ++ descriptor_reads 0 (List.length l)
     ++ [cout "No such USB device found.";
         call_libusb_free_device_list; call_libusb_exit],
     inr tt).
Proof.
  intros Hinit Hlist Hall.
  rewrite <- (app_nil_r l) in Hlist.
  rewrite (reset_scanned l [] Hinit Hlist Hall).
  rewrite app_nil_r. reflexivity.
Qed.

Lemma reset_descriptor_failed pre d post :
  libusb_init h = 0 ->
  libusb_get_device_list h = DeviceListOk (pre ++ d :: post) ->
  forallb (passed_over p) pre = true ->
  readable d = false ->
  reset h p product manufacturer
  = ([call_libusb_init 0;
      call_libusb_get_device_list (Z.of_nat (List.length (pre ++ d :: post)))]
     ++ descriptor_reads 0 (List.length pre)
     ++ [call_libusb_get_device_descriptor (Z.of_nat (List.length pre))
           (fst (device_descriptor d));
         call_libusb_free_device_list; call_libusb_exit],
     inl descriptor_failed).
Proof.
  intros Hinit Hlist Hpre Hd.
  rewrite (reset_scanned pre (d :: post) Hinit Hlist Hpre).
  cbn [List.length].
  rewrite (reset_loop_step h p product manufacturer
             {| cnt := Z.of_nat (List.length (pre ++ d :: post));
                devs := pre ++ d :: post |} eq_refl
             pre d post _ eq_refl).
  rewrite Hd. reflexivity.
Qed.

Lemma reset_selected pre d post :
  libusb_init h = 0 ->
  libusb_get_device_list h = DeviceListOk (pre ++ d :: post) ->
  forallb (passed_over p) pre = true ->
  selected p d = true ->
  reset h p product manufacturer
  = ([call_libusb_init 0;
      call_libusb_get_device_list (Z.of_nat (List.length (pre ++ d :: post)))]
     ++ descriptor_reads 0 (List.length pre)
     ++ [call_libusb_get_device_descriptor (Z.of_nat (List.length pre)) 0]
     ++ trace (reset_matched h product manufacturer
                 (Z.of_nat (List.length pre)) d (descriptor d))
     ++ [call_libusb_free_device_list; call_libusb_exit],
     outcome (reset_matched h product manufacturer
                (Z.of_nat (List.length pre)) d (descriptor d))).
Proof.
  intros Hinit Hlist Hpre Hd.
  apply andb_prop in Hd as [Hr Hids].
  rewrite (reset_scanned pre (d :: post) Hinit Hlist Hpre).
  cbn [List.length].
  rewrite (reset_loop_step h p product manufacturer
             {| cnt := Z.of_nat (List.length (pre ++ d :: post));
                devs := pre ++ d :: post |} eq_refl
             pre d post _ eq_refl).
  rewrite Hr, Hids. cbn [negb trace outcome fst snd].
  unfold readable in Hr. Zbool. rewrite Hr. reflexivity.
Qed.

End Reset.

(** Every snapshot is passed over as a whole, or has a first device that is
    not: one whose descriptor cannot be read, or one that is selected. *)
Lemma scan_cases (p : Z * Z) (l : list libusb_device) :
  forallb (passed_over p) l = true
  \/ exists pre d post,
       l = pre ++ d :: post
       /\ forallb (passed_over p) pre = true
       /\ (readable d = false \/ selected p d = true).
Proof.
  induction l as [|a l IH]; [left; reflexivity|].
  destruct (passed_over p a) eqn:Ha.
  - destruct IH as [IH | (pre & d & post & Hl & Hpre & Hd)].
    + left. cbn [forallb]. rewrite Ha, IH. reflexivity.
    + right. exists (a :: pre), d, post. subst l.
      cbn [forallb]. rewrite Ha, Hpre. auto.
  - right. exists [], a, l. split; [reflexivity|]. split; [reflexivity|].
    unfold passed_over, selected in *.
    destruct (readable a); [right|left; reflexivity].
    destruct (has_ids p a); [reflexivity|discriminate Ha].
Qed.

(** ** Reading a trace *)

Lemma descriptor_reads_S (from n : nat) :
  descriptor_reads from (S n)
  = descriptor_reads from n
    ++ [call_libusb_get_device_descriptor (Z.of_nat (from + n)) 0].
Proof.
  unfold descriptor_reads. rewrite seq_S, map_app. reflexivity.
Qed.

Lemma resets_descriptor_reads (from n : nat) :
  resets (descriptor_reads from n) = false.
Proof.
  unfold resets, descriptor_reads. revert from.
  induction n as [|n IH]; intros from; [reflexivity|]. cbn. apply IH.
Qed.

Lemma output_descriptor_reads (from n : nat) :
  output (descriptor_reads from n) = [].
Proof.
  unfold output, descriptor_reads. revert from.
  induction n as [|n IH]; intros from; [reflexivity|]. cbn. apply IH.
Qed.

Lemma resets_app (t1 t2 : list event) :
  resets (t1 ++ t2) = resets t1 || resets t2.
Proof. apply existsb_app. Qed.

Lemma output_app (t1 t2 : list event) :
  output (t1 ++ t2) = output t1 ++ output t2.
Proof. apply flat_map_app. Qed.

(** ** A run that reaches a matching device *)

Section Selected.

Variables (h : Host) (p : Z * Z) (product manufacturer : option string).
Variables (l pre : list libusb_device) (d : libusb_device)
          (post : list libusb_device).
Hypothesis session : libusb_init h = 0.
Hypothesis snapshot : libusb_get_device_list h = DeviceListOk l.
Hypothesis found : first_match p l pre d post.

Local Abbreviation k := (Z.of_nat (List.length pre)).

Lemma reset_open_failed :
  open_result d <> 0 ->
  reset h p product manufacturer
  = (scan_events l pre
     ++ [call_libusb_open k (open_result d);
         call_libusb_free_device_list; call_libusb_exit],
     inl open_failed).
Proof.
  intros Hopen. destruct found as (Hl & Hpre & Hd).
  rewrite Hl in snapshot.
  rewrite (reset_selected _ _ _ _ _ _ _ session snapshot Hpre Hd).
  rewrite (reset_matched_open_failed _ _ _ _ _ Hopen).
  unfold scan_events. rewrite descriptor_reads_S, Hl.
  cbn [trace outcome fst snd Nat.add]. rewrite <- !app_assoc. reflexivity.
Qed.

Lemma reset_opened :
  open_result d = 0 ->
  reset h p product manufacturer
  = (scan_events l pre
     ++ inspect_events k d
     ++ (if reset_condition product manufacturer
              (actual_product h d) (actual_manufacturer h d)
         then reset_events h k d else [])
     ++ [call_libusb_close k; call_libusb_free_device_list; call_libusb_exit],
     inr tt).
Proof.
  intros Hopen. destruct found as (Hl & Hpre & Hd).
  rewrite Hl in snapshot.
  rewrite (reset_selected _ _ _ _ _ _ _ session snapshot Hpre Hd).
  rewrite (reset_matched_opened _ _ _ _ _ Hopen).
  unfold scan_events, inspect_events. rewrite descriptor_reads_S, Hl.
  cbn [trace outcome fst snd Nat.add]. rewrite <- !app_assoc.
  cbn [app]. rewrite <- ?app_assoc. reflexivity.
Qed.

End Selected.

Lemma resets_reset_events h i d : resets (reset_events h i d) = true.
Proof. reflexivity. Qed.

Lemma resets_scan_events l pre : resets (scan_events l pre) = false.
Proof.
  unfold scan_events. rewrite resets_app, resets_descriptor_reads. reflexivity.
Qed.

Lemma output_scan_events l pre : output (scan_events l pre) = [].
Proof.
  unfold scan_events. rewrite output_app, output_descriptor_reads. reflexivity.
Qed.

(** ** The decision *)

(** C1. In conditional mode, when the scan reaches a matching device and
    opens it, a reset is attempted if and only if the product string read
    from the device differs from the expected one and the manufacturer
    string differs from the expected one; when either string equals its
    expected value the run touches the device no further than reading the
    two strings, writes nothing and ends normally. *)
Theorem conditional_reset_iff_both_differ
    (h : Host) (p : Z * Z) (E_p E_m : string)
    (l pre : list libusb_device) (d : libusb_device) (post : list libusb_device) :
  libusb_init h = 0 ->
  libusb_get_device_list h = DeviceListOk l ->
  first_match p l pre d post ->
  open_result d = 0 ->
  let A_p := actual_product h d in
  let A_m := actual_manufacturer h d in
  let k := Z.of_nat (List.length pre) in
  (resets (trace (reset h p (Some E_p) (Some E_m))) = true
   <-> A_p <> E_p /\ A_m <> E_m)
  /\ (A_p <> E_p /\ A_m <> E_m ->
      reset h p (Some E_p) (Some E_m)
      = (scan_events l pre ++ inspect_events k d ++ reset_events h k d
         ++ [call_libusb_close k; call_libusb_free_device_list;
             call_libusb_exit],
         inr tt))
  /\ (A_p = E_p \/ A_m = E_m ->
      reset h p (Some E_p) (Some E_m)
      = (scan_events l pre ++ inspect_events k d
         ++ [call_libusb_close k; call_libusb_free_device_list;
             call_libusb_exit],
         inr tt)).
Proof.
  intros Hinit Hlist Hfound Hopen A_p A_m k.
  pose proof (reset_opened h p (Some E_p) (Some E_m) l pre d post
                Hinit Hlist Hfound Hopen) as Hrun.
  fold A_p A_m k in Hrun.
  unfold reset_condition in Hrun. cbn [not_null string_ne andb negb orb] in Hrun.
  rewrite orb_false_r in Hrun.
  destruct (String.eqb_spec A_p E_p) as [Hp|Hp];
    destruct (String.eqb_spec A_m E_m) as [Hm|Hm];
    cbn [negb andb] in Hrun; rewrite Hrun; cbn [trace fst];
    rewrite ?resets_app, ?resets_scan_events, ?resets_reset_events;
    cbn [app];
    (split; [split; [intros Hr; try discriminate Hr | intros [H1 H2]]
            | split; [intros [H1 H2] | intros H]]);
    try contradiction; try reflexivity; auto.
  destruct H; contradiction.
Qed.

(** ** Through [main] *)

Lemma main_command_line h argv0 a expected p :
  parse_argv1 a = inr p ->
  main h argv0 (command_line a expected)
  = try_catch (reset h p (expected_product expected)
                 (expected_manufacturer expected)).
Proof.
  intros Hparse. destruct expected as [[ep em]|]; unfold command_line, main;
    rewrite Hparse, bind_lift_inr; reflexivity.
Qed.

(** C2. In unconditional mode (one argument after the program name), when
    the scan reaches a device carrying the requested pair and opens it, the
    reset is attempted whatever the two strings read from the device are:
    the run reports both strings, calls [libusb_reset_device] on that device
    and exits with code 0. *)
Theorem unconditional_reset_proceeds
    (h : Host) (argv0 a : string) (p : Z * Z)
    (l pre : list libusb_device) (d : libusb_device) (post : list libusb_device) :
  parse_argv1 a = inr p ->
  libusb_init h = 0 ->
  libusb_get_device_list h = DeviceListOk l ->
  first_match p l pre d post ->
  open_result d = 0 ->
  let k := Z.of_nat (List.length pre) in
  main h argv0 [a]
  = (scan_events l pre ++ inspect_events k d ++ reset_events h k d
     ++ [call_libusb_close k; call_libusb_free_device_list; call_libusb_exit],
     0)
  /\ resets (fst (main h argv0 [a])) = true.
Proof.
  intros Hparse Hinit Hlist Hfound Hopen k.
  assert (Hmain : main h argv0 [a]
    = (scan_events l pre ++ inspect_events k d ++ reset_events h k d
       ++ [call_libusb_close k; call_libusb_free_device_list; call_libusb_exit],
       0)).
  { change [a] with (command_line a None).
    rewrite (main_command_line h argv0 a None p Hparse).
    cbn [expected_product expected_manufacturer option_map].
    rewrite (reset_opened h p None None l pre d post Hinit Hlist Hfound Hopen).
    reflexivity. }
  split; [exact Hmain|].
  rewrite Hmain. cbn [fst].
  rewrite !resets_app, resets_reset_events, orb_true_r. reflexivity.
Qed.

(** C6. When the session and the snapshot are obtained, every descriptor is
    read and none carries the requested pair, the program reads all the
    descriptors in order, writes "No such USB device found." and nothing
    else, releases the snapshot and the session, and exits with code 0; this
    holds in both modes. *)
Theorem not_found_exits_zero
    (h : Host) (argv0 a : string) (expected : option (string * string))
    (p : Z * Z) (l : list libusb_device) :
  parse_argv1 a = inr p ->
  libusb_init h = 0 ->
  libusb_get_device_list h = DeviceListOk l ->
  forallb readable l = true ->
  forallb (fun d => negb (has_ids p d)) l = true ->
  main h argv0 (command_line a expected)
  = ([call_libusb_init 0; call_libusb_get_device_list (Z.of_nat (List.length l))]
     ++ descriptor_reads 0 (List.length l)
     ++ [cout "No such USB device found.";
         call_libusb_free_device_list; call_libusb_exit],
     0)
  /\ output (fst (main h argv0 (command_line a expected)))
     = ["No such USB device found."].
Proof.
  intros Hparse Hinit Hlist Hread Hids.
  assert (Hall : forallb (passed_over p) l = true).
  { rewrite forallb_forall in *. intros d Hd. unfold passed_over.
    rewrite (Hread d Hd), (Hids d Hd). reflexivity. }
  rewrite (main_command_line h argv0 a expected p Hparse).
  rewrite (reset_not_found h p _ _ l Hinit Hlist Hall).
  cbn [try_catch fst]. split; [reflexivity|].
  rewrite !output_app, output_descriptor_reads. reflexivity.
Qed.

(** C7. When the reset is attempted and [libusb_reset_device] reports a
    failure, the program writes the warning "It seems the reset process did
    not end properly. You should check the device itself to see if it
    succeeded.", then "Finished.", closes the handle, releases the snapshot
    and the session, throws nothing and exits with code 0; this holds in
    both modes. *)
Theorem reset_failure_is_not_fatal
    (h : Host) (argv0 a : string) (expected : option (string * string))
    (p : Z * Z)
    (l pre : list libusb_device) (d : libusb_device) (post : list libusb_device) :
  parse_argv1 a = inr p ->
  libusb_init h = 0 ->
  libusb_get_device_list h = DeviceListOk l ->
  first_match p l pre d post ->
  open_result d = 0 ->
  reset_condition (expected_product expected) (expected_manufacturer expected)
    (actual_product h d) (actual_manufacturer h d) = true ->
  reset_result d <> 0 ->
  let k := Z.of_nat (List.length pre) in
  outcome (reset h p (expected_product expected) (expected_manufacturer expected))
  = inr tt
  /\ main h argv0 (command_line a expected)
     = (scan_events l pre ++ inspect_events k d
        ++ [cout ("Product: " ++ actual_product h d ++ " (length: "
                    ++ decimal (String.length (actual_product h d)) ++ ")")%string;
            cout ("Manufacturer: " ++ actual_manufacturer h d ++ " (length: "
                    ++ decimal (String.length (actual_manufacturer h d))
                    ++ ")")%string;
            cout "Resetting this device ...";
            call_libusb_reset_device k (reset_result d);
            cout "It seems the reset process did not end properly. You should check the device itself to see if it succeeded.";
            cout "Finished.";
            call_libusb_close k; call_libusb_free_device_list;
            call_libusb_exit],
        0)
  /\ output (fst (main h argv0 (command_line a expected)))
     = [("Product: " ++ actual_product h d ++ " (length: "
           ++ decimal (String.length (actual_product h d)) ++ ")")%string;
        ("Manufacturer: " ++ actual_manufacturer h d ++ " (length: "
           ++ decimal (String.length (actual_manufacturer h d)) ++ ")")%string;
        "Resetting this device ...";
        "It seems the reset process did not end properly. You should check the device itself to see if it succeeded.";
        "Finished."].
Proof.
  intros Hparse Hinit Hlist Hfound Hopen Hcond Hrc k.
  rewrite (main_command_line h argv0 a expected p Hparse).
  rewrite (reset_opened h p _ _ l pre d post Hinit Hlist Hfound Hopen).
  rewrite Hcond. unfold reset_events.
  apply Z.eqb_neq in Hrc. rewrite Hrc.
  cbn [try_catch fst snd trace outcome].
  split; [reflexivity|]. split; [reflexivity|].
  rewrite !output_app, output_scan_events. reflexivity.
Qed.

(** C10. When [reset] is called with exactly one of the two expected strings
    and the scan reaches a device carrying the requested pair, no reset is
    attempted and nothing is written, whether the device can be opened or
    not and whatever its strings are. *)
Theorem one_expected_string_never_resets
    (h : Host) (p : Z * Z) (product manufacturer : option string)
    (l pre : list libusb_device) (d : libusb_device) (post : list libusb_device) :
  exactly_one product manufacturer = true ->
  libusb_init h = 0 ->
  libusb_get_device_list h = DeviceListOk l ->
  first_match p l pre d post ->
  resets (trace (reset h p product manufacturer)) = false
  /\ output (trace (reset h p product manufacturer)) = [].
Proof.
  intros Hone Hinit Hlist Hfound.
  destruct (Z.eq_dec (open_result d) 0) as [Hopen|Hopen].
  - rewrite (reset_opened h p _ _ l pre d post Hinit Hlist Hfound Hopen).
    assert (Hcond : reset_condition product manufacturer
                      (actual_product h d) (actual_manufacturer h d) = false).
    { destruct product, manufacturer; try discriminate Hone; reflexivity. }
    rewrite Hcond. cbn [trace fst].
    rewrite !resets_app, !output_app, resets_scan_events, output_scan_events.
    split; reflexivity.
  - rewrite (reset_open_failed h p _ _ l pre d post Hinit Hlist Hfound Hopen).
    cbn [trace fst].
    rewrite !resets_app, !output_app, resets_scan_events, output_scan_events.
    split; reflexivity.
Qed.

(** ** Fatal errors *)





(** ** Release order *)

Lemma released_in_reverse_skip (t1 t2 : list event) (held : list resource) :
  forallb keeps_resources t1 = true ->
  released_in_reverse held (t1 ++ t2) = released_in_reverse held t2.
Proof.
  induction t1 as [|e t1 IH]; intros H; [reflexivity|].
  cbn [forallb] in H. apply andb_prop in H as [He H].
  destruct e; try discriminate He; cbn [app released_in_reverse]; auto.
Qed.

Lemma released_in_reverse_trailing (t n : list event) :
  forallb keeps_resources n = true ->
  forall held, released_in_reverse held (t ++ n) = released_in_reverse held t.
Proof.
  intros Hn. induction t as [|e t IH]; intros held.
  - cbn [app]. rewrite <- (app_nil_r n).
    apply (released_in_reverse_skip n [] held Hn).
  - destruct e; cbn [app released_in_reverse]; try apply IH;
      destruct held as [|[] held]; try reflexivity; rewrite IH; reflexivity.
Qed.

Lemma releases_skip (t : list event) :
  forallb keeps_resources t = true -> releases t = [].
Proof.
  induction t as [|e t IH]; intros H; [reflexivity|].
  cbn [forallb] in H. apply andb_prop in H as [He H].
  destruct e; try discriminate He; cbn; auto.
Qed.

Lemma releases_app (t1 t2 : list event) :
  releases (t1 ++ t2) = releases t1 ++ releases t2.
Proof. apply filter_app. Qed.

Lemma keeps_descriptor_reads (from n : nat) :
  forallb keeps_resources (descriptor_reads from n) = true.
Proof.
  unfold descriptor_reads. revert from.
  induction n as [|n IH]; intros from; [reflexivity|]. cbn. apply IH.
Qed.

Lemma keeps_reset_events h i d :
  forallb keeps_resources (reset_events h i d) = true.
Proof.
  unfold reset_events. destruct (reset_result d =? 0); reflexivity.
Qed.

Lemma keeps_decided (c : bool) h i d :
  forallb keeps_resources (if c then reset_events h i d else []) = true.
Proof. destruct c; [apply keeps_reset_events | reflexivity]. Qed.

Lemma reset_releases (h : Host) (p : Z * Z) (product manufacturer : option string) :
  released_in_reverse [] (trace (reset h p product manufacturer)) = true
  /\ reverse_order (releases (trace (reset h p product manufacturer))).
Proof.
  destruct (Z.eq_dec (libusb_init h) 0) as [Hinit|Hinit].
  2:{ rewrite (reset_init_failed _ _ _ _ Hinit). cbn [trace fst].
      cbn. apply Z.eqb_neq in Hinit. rewrite Hinit.
      split; [reflexivity | left; reflexivity]. }
  destruct (libusb_get_device_list h) as [l|code] eqn:Hlist.
  2:{ rewrite (reset_enumeration_failed _ _ _ _ _ Hinit Hlist).
      split; [reflexivity | right; left; reflexivity]. }
  assert (Hcnt : forall n : nat, (Z.of_nat n <? 0) = false)
    by (intros n; apply Z.ltb_ge; lia).
  destruct (scan_cases p l) as [Hall | (pre & d & post & Hl & Hpre & [Hd|Hd])].
  - rewrite (reset_not_found _ _ _ _ _ Hinit Hlist Hall). cbn [trace fst].
    split.
    + cbn [app released_in_reverse Z.eqb]. rewrite Hcnt.
      rewrite released_in_reverse_skip by apply keeps_descriptor_reads.
      reflexivity.
    + rewrite !releases_app, (releases_skip _ (keeps_descriptor_reads _ _)).
      right; right; left; reflexivity.
  - subst l.
    rewrite (reset_descriptor_failed _ _ _ _ _ _ _ Hinit Hlist Hpre Hd).
    cbn [trace fst]. split.
    + cbn [app released_in_reverse Z.eqb]. rewrite Hcnt.
      rewrite released_in_reverse_skip by apply keeps_descriptor_reads.
      reflexivity.
    + rewrite !releases_app, (releases_skip _ (keeps_descriptor_reads _ _)).
      right; right; left; reflexivity.
  - assert (Hfound : first_match p l pre d post) by (repeat split; assumption).
    destruct (Z.eq_dec (open_result d) 0) as [Hopen|Hopen].
    + rewrite (reset_opened _ _ _ _ _ _ _ _ Hinit Hlist Hfound Hopen).
      cbn [trace fst]. unfold scan_events, inspect_events. split.
      * cbn [app released_in_reverse Z.eqb]. rewrite Hcnt.
        rewrite released_in_reverse_skip by apply keeps_descriptor_reads.
        cbn [app released_in_reverse Z.eqb].
        rewrite released_in_reverse_skip by apply keeps_decided.
        cbn [app released_in_reverse]. rewrite Z.eqb_refl. reflexivity.
      * rewrite !releases_app, (releases_skip _ (keeps_descriptor_reads _ _)),
          (releases_skip _ (keeps_decided _ _ _ _)).
        right; right; right. eexists. reflexivity.
    + rewrite (reset_open_failed _ _ _ _ _ _ _ _ Hinit Hlist Hfound Hopen).
      cbn [trace fst]. unfold scan_events. split.
      * cbn [app released_in_reverse Z.eqb]. rewrite Hcnt.
        rewrite released_in_reverse_skip by apply keeps_descriptor_reads.
        cbn [app released_in_reverse]. apply Z.eqb_neq in Hopen.
        rewrite Hopen. reflexivity.
      * rewrite !releases_app, (releases_skip _ (keeps_descriptor_reads _ _)).
        right; right; left; reflexivity.
Qed.

Lemma try_catch_trace (m : M unit) :
  fst (try_catch m) = trace m
  \/ exists e, fst (try_catch m) = trace m ++ diagnostic e.
Proof.
  destruct m as [t [e|[]]]; [right; exists e|left]; reflexivity.
Qed.

(** C9. On every path of an invocation (whatever the machine answers,
    whatever the arguments are, and so whether the run resets, skips, finds
    nothing, is warned of a failed reset or ends on a fatal error) each
    release gives back the most recently acquired resource still held and
    nothing is held at the end; the releases are, in this order, the handle
    if one was opened, the device list if one was obtained, and the session
    if one was initialised. *)
Theorem resources_released_in_reverse_order
    (h : Host) (argv0 : string) (args : list string)
    (p : Z * Z) (product manufacturer : option string) :
  (released_in_reverse [] (trace (reset h p product manufacturer)) = true
   /\ reverse_order (releases (trace (reset h p product manufacturer))))
  /\ (released_in_reverse [] (fst (main h argv0 args)) = true
      /\ reverse_order (releases (fst (main h argv0 args)))).
Proof.
  split; [apply reset_releases|].
  assert (Hbody : forall m : M unit,
             released_in_reverse [] (trace m) = true
             /\ reverse_order (releases (trace m)) ->
             released_in_reverse [] (fst (try_catch m)) = true
             /\ reverse_order (releases (fst (try_catch m)))).
  { intros m [H1 H2].
    destruct (try_catch_trace m) as [Ht|[e Ht]]; rewrite Ht.
    - split; assumption.
    - rewrite released_in_reverse_trailing by reflexivity.
      rewrite releases_app, app_nil_r. split; assumption. }
  assert (Hparse : forall a pr mf,
             released_in_reverse []
               (fst (try_catch (q <- lift (parse_argv1 a) ;; reset h q pr mf)))
             = true
             /\ reverse_order
                  (releases
                     (fst (try_catch (q <- lift (parse_argv1 a) ;;
                                      reset h q pr mf))))).
  { intros a pr mf. destruct (parse_argv1 a) as [e|q].
    - split; [reflexivity | left; reflexivity].
    - rewrite bind_lift_inr. apply Hbody, reset_releases. }
  destruct args as [|a [|b [|c [|x args]]]]; cbn [main];
    try (split; [reflexivity | left; reflexivity]); apply Hparse.
Qed.

(** ** The matcher *)

Lemma examined_descriptor_reads (from n : nat) :
  examined (descriptor_reads from n) = indices from n.
Proof.
  unfold examined, descriptor_reads, indices. revert from.
  induction n as [|n IH]; intros from; [reflexivity|].
  cbn. f_equal. apply IH.
Qed.

Lemma descriptors_read_descriptor_reads (from n : nat) :
  descriptors_read (descriptor_reads from n) = indices from n.
Proof.
  unfold descriptors_read, descriptor_reads, indices. revert from.
  induction n as [|n IH]; intros from; [reflexivity|].
  cbn. f_equal. apply IH.
Qed.

Lemma opened_descriptor_reads (from n : nat) :
  opened (descriptor_reads from n) = [].
Proof.
  unfold opened, descriptor_reads. revert from.
  induction n as [|n IH]; intros from; [reflexivity|]. cbn. apply IH.
Qed.

Lemma indices_bounded (n : nat) :
  Forall (fun i => 0 <= i <= Z.of_nat n) (indices 0 (S n)).
Proof.
  apply Forall_forall. intros i Hi. unfold indices in Hi.
  apply in_map_iff in Hi as (j & <- & Hj). apply in_seq in Hj. lia.
Qed.

Lemma first_match_is_first p l pre d post :
  first_match p l pre d post ->
  nth_error l (List.length pre) = Some d
  /\ has_ids p d = true
  /\ forall j d', (j < List.length pre)%nat -> nth_error l j = Some d' ->
                  has_ids p d' = false.
Proof.
  intros (Hl & Hpre & Hd). subst l. split; [|split].
  - rewrite nth_error_app2, Nat.sub_diag by lia. reflexivity.
  - apply andb_prop in Hd. apply Hd.
  - intros j d' Hj Hnth. rewrite nth_error_app1 in Hnth by exact Hj.
    apply nth_error_In in Hnth.
    rewrite forallb_forall in Hpre. specialize (Hpre d' Hnth).
    apply andb_prop in Hpre as [_ Hpre]. apply negb_true_iff. exact Hpre.
Qed.

Lemma scan_stops_at_first_match
    (h : Host) (p : Z * Z) (product manufacturer : option string)
    (l pre : list libusb_device) (d : libusb_device) (post : list libusb_device) :
  libusb_init h = 0 ->
  libusb_get_device_list h = DeviceListOk l ->
  first_match p l pre d post ->
  let k := Z.of_nat (List.length pre) in
  let t := trace (reset h p product manufacturer) in
  (nth_error l (List.length pre) = Some d
   /\ has_ids p d = true
   /\ forall j d', (j < List.length pre)%nat -> nth_error l j = Some d' ->
                   has_ids p d' = false)
  /\ descriptors_read t = indices 0 (S (List.length pre))
  /\ opened t = [k]
  /\ Forall (fun i => 0 <= i <= k) (examined t).
Proof.
  intros Hinit Hlist Hfound k t.
  split; [apply (first_match_is_first p l pre d post Hfound)|].
  pose proof (indices_bounded (List.length pre)) as Hbound. fold k in Hbound.
  assert (Hk : 0 <= k <= k) by (unfold k; lia).
  unfold t. destruct (Z.eq_dec (open_result d) 0) as [Hopen|Hopen].
  - rewrite (reset_opened _ _ _ _ _ _ _ _ Hinit Hlist Hfound Hopen).
    cbn [trace fst]. unfold scan_events, inspect_events. fold k.
    unfold descriptors_read, opened, examined.
    rewrite !flat_map_app.
    fold (descriptors_read (descriptor_reads 0 (S (List.length pre)))).
    fold (opened (descriptor_reads 0 (S (List.length pre)))).
    fold (examined (descriptor_reads 0 (S (List.length pre)))).
    rewrite descriptors_read_descriptor_reads, opened_descriptor_reads,
      examined_descriptor_reads.
    unfold reset_events.
    destruct (reset_condition _ _ _ _); destruct (reset_result d =? 0);
      cbn [flat_map app touched]; rewrite ?app_nil_r;
      (split; [reflexivity | split; [reflexivity|]]);
      apply Forall_app; (split; [exact Hbound|]);
      repeat (constructor; [exact Hk|]); constructor.
  - rewrite (reset_open_failed _ _ _ _ _ _ _ _ Hinit Hlist Hfound Hopen).
    cbn [trace fst]. unfold scan_events. fold k.
    unfold descriptors_read, opened, examined.
    rewrite !flat_map_app.
    fold (descriptors_read (descriptor_reads 0 (S (List.length pre)))).
    fold (opened (descriptor_reads 0 (S (List.length pre)))).
    fold (examined (descriptor_reads 0 (S (List.length pre)))).
    rewrite descriptors_read_descriptor_reads, opened_descriptor_reads,
      examined_descriptor_reads.
    cbn [flat_map app touched]. rewrite ?app_nil_r.
    split; [reflexivity | split; [reflexivity|]].
    apply Forall_app. split; [exact Hbound|].
    repeat (constructor; [exact Hk|]); constructor.
Qed.

Lemma opened_at_most_one
    (h : Host) (p : Z * Z) (product manufacturer : option string) :
  (List.length (opened (trace (reset h p product manufacturer))) <= 1)%nat.
Proof.
  destruct (Z.eq_dec (libusb_init h) 0) as [Hinit|Hinit].
  2:{ rewrite (reset_init_failed _ _ _ _ Hinit). cbn. lia. }
  destruct (libusb_get_device_list h) as [l|code] eqn:Hlist.
  2:{ rewrite (reset_enumeration_failed _ _ _ _ _ Hinit Hlist). cbn. lia. }
  destruct (scan_cases p l) as [Hall | (pre & d & post & Hl & Hpre & [Hd|Hd])].
  - rewrite (reset_not_found _ _ _ _ _ Hinit Hlist Hall). cbn [trace fst].
    unfold opened. rewrite !flat_map_app.
    fold (opened (descriptor_reads 0 (List.length l))).
    rewrite opened_descriptor_reads. cbn. lia.
  - subst l.
    rewrite (reset_descriptor_failed _ _ _ _ _ _ _ Hinit Hlist Hpre Hd).
    cbn [trace fst]. unfold opened. rewrite !flat_map_app.
    fold (opened (descriptor_reads 0 (List.length pre))).
    rewrite opened_descriptor_reads. cbn. lia.
  - assert (Hfound : first_match p l pre d post) by (repeat split; assumption).
    destruct (scan_stops_at_first_match h p product manufacturer l pre d post
                Hinit Hlist Hfound) as (_ & _ & Hopened & _).
    rewrite Hopened. cbn. lia.
Qed.

(** C5. No run asks for a handle on more than one device.  When the device
    at index [k] is the first of the snapshot whose descriptor carries the
    requested pair (the descriptors before it being read), the run requests
    the descriptors of the devices 0, 1, ..., [k] in this order and of no
    other, asks for a handle on device [k] and on no other, and none of its
    events is about a device behind [k]. *)
Theorem matcher_selects_first_match
    (h : Host) (p : Z * Z) (product manufacturer : option string) :
  let t := trace (reset h p product manufacturer) in
  (List.length (opened t) <= 1)%nat
  /\ forall (l pre : list libusb_device) (d : libusb_device)
            (post : list libusb_device),
      libusb_init h = 0 ->
      libusb_get_device_list h = DeviceListOk l ->
      first_match p l pre d post ->
      let k := Z.of_nat (List.length pre) in
      (nth_error l (List.length pre) = Some d
       /\ has_ids p d = true
       /\ forall j d', (j < List.length pre)%nat -> nth_error l j = Some d' ->
                       has_ids p d' = false)
      /\ descriptors_read t = indices 0 (S (List.length pre))
      /\ opened t = [k]
      /\ Forall (fun i => 0 <= i <= k) (examined t).
Proof.
  intros t. split.
  - apply opened_at_most_one.
  - intros l pre d post Hinit Hlist Hfound.
    apply (scan_stops_at_first_match h p product manufacturer l pre d post
             Hinit Hlist Hfound).
Qed.

(** ** The theorems at concrete machines *)

Lemma pc_keyboard_first :
  first_match (0x413c, 0x2003)
    [Examples.hub; Examples.keyboard; Examples.wedged_keyboard]
    [Examples.hub] Examples.keyboard [Examples.wedged_keyboard].
Proof. split; [reflexivity | split; reflexivity]. Defined.

Lemma pc_wedged_first :
  first_match (0x413c, 0x2003)
    [Examples.hub; Examples.wedged_keyboard; Examples.keyboard]
    [Examples.hub] Examples.wedged_keyboard [Examples.keyboard].
Proof. split; [reflexivity | split; reflexivity]. Defined.

Lemma conditional_reset_iff_both_differ_witness :
  reset Examples.pc (0x413c, 0x2003) (Some "Dell USB Keyboard") (Some "Dell")
  = ([call_libusb_init 0; call_libusb_get_device_list 3;
      call_libusb_get_device_descriptor 0 0;
      call_libusb_get_device_descriptor 1 0;
      call_libusb_open 1 0;
      call_libusb_get_string_descriptor_ascii 1 2;
      call_libusb_get_string_descriptor_ascii 1 1;
      call_libusb_close 1; call_libusb_free_device_list; call_libusb_exit],
     inr tt)
  /\ resets (trace (reset Examples.pc_wedged (0x413c, 0x2003)
                      (Some "Dell USB Keyboard") (Some "Dell"))) = true.
Proof.
  split.
  - refine (proj2 (proj2 (conditional_reset_iff_both_differ
                            Examples.pc (0x413c, 0x2003)
                            "Dell USB Keyboard" "Dell" _ _ _ _
                            eq_refl eq_refl pc_keyboard_first eq_refl)) _).
    left. reflexivity.
  - refine (proj2 (proj1 (conditional_reset_iff_both_differ
                            Examples.pc_wedged (0x413c, 0x2003)
                            "Dell USB Keyboard" "Dell" _ _ _ _
                            eq_refl eq_refl pc_wedged_first eq_refl)) _).
    split; discriminate.
Defined.

Lemma unconditional_reset_proceeds_witness :
  main Examples.pc "usb_reset" ["413c:2003"]
  = ([call_libusb_init 0; call_libusb_get_device_list 3;
      call_libusb_get_device_descriptor 0 0;
      call_libusb_get_device_descriptor 1 0;
      call_libusb_open 1 0;
      call_libusb_get_string_descriptor_ascii 1 2;
      call_libusb_get_string_descriptor_ascii 1 1;
      cout "Product: Dell USB Keyboard (length: 17)";
      cout "Manufacturer: Dell (length: 4)";
      cout "Resetting this device ...";
      call_libusb_reset_device 1 0;
      cout "Finished.";
      call_libusb_close 1; call_libusb_free_device_list; call_libusb_exit],
     0)
  /\ resets (fst (main Examples.pc "usb_reset" ["413c:2003"])) = true.
Proof.
  exact (unconditional_reset_proceeds Examples.pc "usb_reset" "413c:2003"
           (0x413c, 0x2003) _ _ _ _
           eq_refl eq_refl eq_refl pc_keyboard_first eq_refl).
Defined.

Lemma matcher_selects_first_match_witness :
  descriptors_read
    (trace (reset Examples.pc (0x413c, 0x2003) None None)) = [0; 1]
  /\ opened (trace (reset Examples.pc (0x413c, 0x2003) None None)) = [1]
  /\ Forall (fun i => 0 <= i <= 1)
       (examined (trace (reset Examples.pc (0x413c, 0x2003) None None))).
Proof.
  exact (proj2 (proj2 (matcher_selects_first_match Examples.pc (0x413c, 0x2003)
                         None None)
                  _ _ _ _ eq_refl eq_refl pc_keyboard_first)).
Defined.

Lemma not_found_exits_zero_witness :
  main Examples.pc "usb_reset" ["dead:beef"]
  = ([call_libusb_init 0; call_libusb_get_device_list 3;
      call_libusb_get_device_descriptor 0 0;
      call_libusb_get_device_descriptor 1 0;
      call_libusb_get_device_descriptor 2 0;
      cout "No such USB device found.";
      call_libusb_free_device_list; call_libusb_exit],
     0)
  /\ output (fst (main Examples.pc "usb_reset" ["dead:beef"]))
     = ["No such USB device found."].
Proof.
  exact (not_found_exits_zero Examples.pc "usb_reset" "dead:beef" None
           (0xdead, 0xbeef) _ eq_refl eq_refl eq_refl eq_refl eq_refl).
Defined.

Lemma reset_failure_is_not_fatal_witness :
  outcome (reset Examples.pc_wedged (0x413c, 0x2003)
             (Some "Dell USB Keyboard") (Some "Dell")) = inr tt
  /\ main Examples.pc_wedged "usb_reset" ["413c:2003"; "Dell USB Keyboard"; "Dell"]
     = ([call_libusb_init 0; call_libusb_get_device_list 3;
         call_libusb_get_device_descriptor 0 0;
         call_libusb_get_device_descriptor 1 0;
         call_libusb_open 1 0;
         call_libusb_get_string_descriptor_ascii 1 2;
         call_libusb_get_string_descriptor_ascii 1 1;
         cout "Product:  (length: 0)";
         cout "Manufacturer:  (length: 0)";
         cout "Resetting this device ...";
         call_libusb_reset_device 1 (-5);
         cout "It seems the reset process did not end properly. You should check the device itself to see if it succeeded.";
         cout "Finished.";
         call_libusb_close 1; call_libusb_free_device_list; call_libusb_exit],
        0)
  /\ output (fst (main Examples.pc_wedged "usb_reset"
                    ["413c:2003"; "Dell USB Keyboard"; "Dell"]))
     = ["Product:  (length: 0)";
        "Manufacturer:  (length: 0)";
        "Resetting this device ...";
        "It seems the reset process did not end properly. You should check the device itself to see if it succeeded.";
        "Finished."].
Proof.
  refine (reset_failure_is_not_fatal Examples.pc_wedged "usb_reset" "413c:2003"
            (Some ("Dell USB Keyboard", "Dell")) (0x413c, 0x2003) _ _ _ _
            eq_refl eq_refl eq_refl pc_wedged_first eq_refl eq_refl _).
  discriminate.
Defined.

Lemma one_expected_string_never_resets_witness :
  resets (trace (reset Examples.pc_wedged (0x413c, 0x2003)
                   (Some "Dell USB Keyboard") None)) = false
  /\ output (trace (reset Examples.pc_wedged (0x413c, 0x2003)
                      (Some "Dell USB Keyboard") None)) = [].
Proof.
  exact (one_expected_string_never_resets Examples.pc_wedged (0x413c, 0x2003)
           (Some "Dell USB Keyboard") None _ _ _ _
           eq_refl eq_refl eq_refl pc_wedged_first).
Defined.

(** * Further properties of the identifier parser *)

Lemma isspace_tolerated (c : ascii) : LibC.isspace c = true -> tolerated c = true.
Proof.
  intros H. unfold tolerated. rewrite H. destruct (hex_digit c); reflexivity.
Qed.

Lemma is_x_tolerated (c : ascii) : LibC.is_x c = true -> tolerated c = true.
Proof.
  intros H. unfold tolerated. rewrite H, orb_true_r.
  destruct (hex_digit c); reflexivity.
Qed.

Lemma skip_spaces_tolerated (s : string) : forall s1 k m,
  LibC.skip_spaces s = (s1, k) ->
  prefix_tolerated m s1 = true ->
  prefix_tolerated (k + m) s = true.
Proof.
  induction s as [|c s IH]; intros s1 k m Hskip Hm; cbn [LibC.skip_spaces] in Hskip.
  - inversion Hskip; subst. exact Hm.
  - destruct (LibC.isspace c) eqn:Hc.
    + destruct (LibC.skip_spaces s) as [r n] eqn:Hr.
      inversion Hskip; subst. cbn [Nat.add prefix_tolerated].
      rewrite (isspace_tolerated c Hc), (IH s1 n m eq_refl Hm). reflexivity.
    + inversion Hskip; subst. exact Hm.
Qed.

Lemma scan_digits_tolerated (s : string) : forall acc v k,
  0 <= acc ->
  LibC.scan_digits 16 s acc = (v, k) ->
  0 <= v /\ prefix_tolerated k s = true.
Proof.
  induction s as [|c s IH]; intros acc v k Hacc Hscan;
    cbn [LibC.scan_digits] in Hscan.
  - inversion Hscan; subst. split; [exact Hacc | reflexivity].
  - rewrite digit_value_16 in Hscan.
    destruct (hex_digit c) as [d|] eqn:Hd.
    + destruct (LibC.scan_digits 16 s (acc * 16 + d)) as [w n] eqn:Hw.
      inversion Hscan; subst.
      pose proof (hex_digit_range c d Hd) as Hrange.
      destruct (IH (acc * 16 + d) v n ltac:(lia) Hw) as [Hv Hn].
      split; [exact Hv|]. cbn [prefix_tolerated].
      unfold tolerated. rewrite Hd, Hn. reflexivity.
    + inversion Hscan; subst. split; [exact Hacc | reflexivity].
Qed.

(** The sign of the numeral: none, or one character. *)
Lemma strtoul_sign (s1 : string) :
  match s1 with
  | String "-" r => (true, r, 1%nat)
  | String "+" r => (false, r, 1%nat)
  | _ => (false, s1, 0%nat)
  end = (false, s1, 0%nat)
  \/ exists c s2 negative,
       s1 = String c s2 /\ tolerated c = true
       /\ match s1 with
          | String "-" r => (true, r, 1%nat)
          | String "+" r => (false, r, 1%nat)
          | _ => (false, s1, 0%nat)
          end = (negative, s2, 1%nat).
Proof.
  destruct s1 as [|c s2]; [left; reflexivity|].
  destruct c as [[] [] [] [] [] [] [] []]; try (left; reflexivity);
    right; eexists _, s2, _; repeat split.
Qed.

(** The prefix of the numeral: none, or [0x]. *)
Lemma strtoul_prefix (s2 : string) :
  match s2 with
  | String "0" (String x r) =>
      if (16 =? 16) && LibC.is_x x then (r, 2%nat) else (s2, 0%nat)
  | _ => (s2, 0%nat)
  end = (s2, 0%nat)
  \/ exists x s3,
       s2 = String "0" (String x s3) /\ tolerated x = true
       /\ match s2 with
          | String "0" (String x r) =>
              if (16 =? 16) && LibC.is_x x then (r, 2%nat) else (s2, 0%nat)
          | _ => (s2, 0%nat)
          end = (s3, 2%nat).
Proof.
  destruct s2 as [|c [|x s3]]; try (left; reflexivity).
  - left. destruct c as [[] [] [] [] [] [] [] []]; reflexivity.
  - change (16 =? 16) with true.
    destruct (LibC.is_x x) eqn:Hx.
    + destruct c as [[] [] [] [] [] [] [] []];
        try (left; cbv beta iota; cbn [andb]; rewrite ?Hx; reflexivity).
      right. exists x, s3. cbv beta iota. cbn [andb].
      repeat split. apply is_x_tolerated, Hx.
    + left. destruct c as [[] [] [] [] [] [] [] []]; cbv beta iota;
        cbn [andb]; rewrite ?Hx; reflexivity.
Qed.

Lemma strtoul_negated_nonneg (negative : bool) (w : Z) :
  0 <= w ->
  0 <= (if negative
        then (LibC.ULONG_MAX + 1 - w) mod (LibC.ULONG_MAX + 1)
        else w).
Proof.
  intros Hw. destruct negative; [|exact Hw].
  apply Z.mod_pos_bound. reflexivity.
Qed.

(** Whatever [strtoul] is given, it returns a value from 0 to [ULONG_MAX]
    and an end pointer inside the string, behind tolerated characters
    only. *)
Lemma strtoul_consumes_tolerated (s : string) (v : Z) (n : nat) :
  LibC.strtoul s 16 = (v, n) ->
  0 <= v /\ prefix_tolerated n s = true.
Proof.
  unfold LibC.strtoul.
  destruct (LibC.skip_spaces s) as [s1 ks] eqn:Hskip.
  assert (Hzero : tolerated "0" = true) by reflexivity.
  destruct (strtoul_sign s1) as [Hsign | (c & s2 & neg & Hs1 & Hc & Hsign)];
    rewrite Hsign; clear Hsign.
  - destruct (strtoul_prefix s1) as [Hpre | (x & s3 & Hs2 & Hx & Hpre)];
      rewrite Hpre; clear Hpre.
    + destruct (LibC.scan_digits 16 s1 0) as [w nd] eqn:Hscan.
      destruct (scan_digits_tolerated s1 0 w nd ltac:(lia) Hscan) as [Hw Hnd].
      destruct nd as [|nd]; cbn [Nat.eqb].
      * intros H; apply pair_equal_spec in H as [Hv Hn]; subst v n. split; [lia | reflexivity].
      * destruct (w >? LibC.ULONG_MAX); intros H; apply pair_equal_spec in H as [Hv Hn]; subst v n;
          (split; [unfold LibC.ULONG_MAX; lia|]);
          replace (ks + 0 + 0 + S nd)%nat with (ks + S nd)%nat by lia;
          apply (skip_spaces_tolerated s s1 ks _ Hskip Hnd).
    + subst.
      destruct (LibC.scan_digits 16 s3 0) as [w nd] eqn:Hscan.
      destruct (scan_digits_tolerated s3 0 w nd ltac:(lia) Hscan) as [Hw Hnd].
      destruct nd as [|nd]; cbn [Nat.eqb].
      * intros H; apply pair_equal_spec in H as [Hv Hn]; subst v n. split; [lia|].
        replace (ks + 0 + 1)%nat with (ks + 1)%nat by lia.
        apply (skip_spaces_tolerated s _ ks 1%nat Hskip). reflexivity.
      * destruct (w >? LibC.ULONG_MAX); intros H; apply pair_equal_spec in H as [Hv Hn]; subst v n;
          (split; [unfold LibC.ULONG_MAX; lia|]);
          replace (ks + 0 + 2 + S nd)%nat with (ks + S (S (S nd)))%nat by lia;
          apply (skip_spaces_tolerated s _ ks _ Hskip);
          cbn [prefix_tolerated]; cbn [prefix_tolerated] in Hnd;
          rewrite Hzero, Hx, Hnd; reflexivity.
  - subst s1.
    destruct (strtoul_prefix s2) as [Hpre | (x & s3 & Hs2 & Hx & Hpre)];
      rewrite Hpre; clear Hpre.
    + destruct (LibC.scan_digits 16 s2 0) as [w nd] eqn:Hscan.
      destruct (scan_digits_tolerated s2 0 w nd ltac:(lia) Hscan) as [Hw Hnd].
      destruct nd as [|nd]; cbn [Nat.eqb].
      * intros H; apply pair_equal_spec in H as [Hv Hn]; subst v n. split; [lia | reflexivity].
      * destruct (w >? LibC.ULONG_MAX); intros H; apply pair_equal_spec in H as [Hv Hn]; subst v n;
          (split; [first [ unfold LibC.ULONG_MAX; lia
                         | apply strtoul_negated_nonneg; exact Hw ]
                  |]);
          replace (ks + 1 + 0 + S nd)%nat with (ks + S (S nd))%nat by lia;
          apply (skip_spaces_tolerated s _ ks _ Hskip);
          cbn [prefix_tolerated]; cbn [prefix_tolerated] in Hnd;
          rewrite Hc, Hnd; reflexivity.
    + subst.
      destruct (LibC.scan_digits 16 s3 0) as [w nd] eqn:Hscan.
      destruct (scan_digits_tolerated s3 0 w nd ltac:(lia) Hscan) as [Hw Hnd].
      destruct nd as [|nd]; cbn [Nat.eqb].
      * intros H; apply pair_equal_spec in H as [Hv Hn]; subst v n. split; [lia|].
        replace (ks + 1 + 1)%nat with (ks + 2)%nat by lia.
        apply (skip_spaces_tolerated s _ ks 2%nat Hskip).
        cbn [prefix_tolerated]. rewrite Hc, Hzero. reflexivity.
      * destruct (w >? LibC.ULONG_MAX); intros H; apply pair_equal_spec in H as [Hv Hn]; subst v n;
          (split; [first [ unfold LibC.ULONG_MAX; lia
                         | apply strtoul_negated_nonneg; exact Hw ]
                  |]);
          replace (ks + 1 + 2 + S nd)%nat with (ks + S (S (S (S nd))))%nat by lia;
          apply (skip_spaces_tolerated s _ ks _ Hskip);
          cbn [prefix_tolerated]; cbn [prefix_tolerated] in Hnd;
          rewrite Hc, Hzero, Hx, Hnd; reflexivity.
Qed.

Lemma parse_argv1_inr_inv (input : string) (v p : Z) :
  parse_argv1 input = inr (v, p) ->
  String.length input = 9%nat
  /\ get 4 input = Some ":"%char
  /\ LibC.strtoul (substr input 0 4) 16 = (v, 4%nat)
  /\ LibC.strtoul (substr input 5 4) 16 = (p, 4%nat)
  /\ 0 <= v < 65536 /\ 0 <= p < 65536.
Proof.
  unfold parse_argv1.
  destruct (String.length input =? 9)%nat eqn:Hlen; [|discriminate].
  destruct (get 4 input) as [c|] eqn:Hget; [|discriminate].
  destruct (Ascii.eqb c ":") eqn:Hc; [|discriminate].
  cbn [negb orb].
  destruct (LibC.strtoul (substr input 0 4) 16) as [num1 ptr1] eqn:H1.
  destruct (ptr1 =? 4)%nat eqn:Hp1; [|discriminate].
  destruct (num1 >=? 65536) eqn:Hn1; [discriminate|].
  cbn [negb orb].
  destruct (LibC.strtoul (substr input 5 4) 16) as [num2 ptr2] eqn:H2.
  destruct (ptr2 =? 4)%nat eqn:Hp2; [|discriminate].
  destruct (num2 >=? 65536) eqn:Hn2; [discriminate|].
  cbn [negb orb]. intros H.
  apply Nat.eqb_eq in Hlen, Hp1, Hp2. apply Ascii.eqb_eq in Hc. subst.
  destruct (strtoul_consumes_tolerated _ _ _ H1) as [Hv1 _].
  destruct (strtoul_consumes_tolerated _ _ _ H2) as [Hv2 _].
  Zbool.
  assert (Hu1 : uint16_t num1 = num1) by (apply Z.mod_small; lia).
  assert (Hu2 : uint16_t num2 = num2) by (apply Z.mod_small; lia).
  rewrite Hu1, Hu2 in H. injection H as -> ->.
  repeat split; try reflexivity; lia.
Qed.

Lemma parse_argv1_of_halves (input : string) (vendor product : Z) :
  String.length input = 9%nat ->
  get 4 input = Some ":"%char ->
  hex_number (substring 0 4 input) = Some vendor ->
  hex_number (substring 5 4 input) = Some product ->
  parse_argv1 input = inr (vendor, product).
Proof.
  intros Hlen Hcolon Hv Hp.
  destruct (hex_half (substring 0 4 input) vendor) as [Hs1 Hr1];
    [apply substring_length_le; lia | exact Hv |].
  destruct (hex_half (substring 5 4 input) product) as [Hs2 Hr2];
    [apply substring_length_le; lia | exact Hp |].
  unfold parse_argv1, substr.
  rewrite Hlen, Hcolon, Hs1, Hs2. cbn [Nat.eqb Ascii.eqb negb orb]. simpl.
  destruct (vendor >=? 65536) eqn:H1; [lia|].
  destruct (product >=? 65536) eqn:H2; [lia|].
  unfold uint16_t. rewrite !Z.mod_small by lia. reflexivity.
Qed.

Lemma hex_digit_hex_char (d : Z) :
  0 <= d < 16 -> hex_digit (hex_char d) = Some d.
Proof.
  intros Hd.
  assert (H : d = 0 \/ d = 1 \/ d = 2 \/ d = 3 \/ d = 4 \/ d = 5 \/ d = 6
              \/ d = 7 \/ d = 8 \/ d = 9 \/ d = 10 \/ d = 11 \/ d = 12
              \/ d = 13 \/ d = 14 \/ d = 15) by lia.
  repeat (destruct H as [->|H]; [reflexivity|]). subst d. reflexivity.
Qed.

Lemma hex_number_hex4 (v : Z) :
  0 <= v < 65536 -> hex_number (hex4 v) = Some v.
Proof.
  intros Hv. unfold hex4. cbn [hex_number String.length].
  rewrite !hex_digit_hex_char by (Z.div_mod_to_equations; lia).
  f_equal.
  change (16 ^ Z.of_nat 3) with 4096. change (16 ^ Z.of_nat 2) with 256.
  change (16 ^ Z.of_nat 1) with 16. change (16 ^ Z.of_nat 0) with 1.
  Z.div_mod_to_equations. lia.
Qed.

(** X1. The parser ends on the format error exactly when the argument is
    not nine characters long or has no colon at offset 4; a bad half never
    shows as a format error. *)
Theorem parse_argv1_format_error_iff (input : string) :
  parse_argv1 input = inl FormatError
  <-> String.length input <> 9%nat \/ get 4 input <> Some ":"%char.
Proof.
  split; [|apply parse_argv1_format_error].
  intros H.
  destruct (Nat.eq_dec (String.length input) 9) as [Hlen|Hlen]; [|left; exact Hlen].
  right. intros Hcolon. unfold parse_argv1 in H.
  rewrite Hlen, Hcolon in H. cbn [Nat.eqb Ascii.eqb negb orb] in H.
  simpl (Ascii.eqb _ _) in H. cbn [negb orb] in H.
  destruct (LibC.strtoul (substr input 0 4) 16) as [num1 ptr1].
  destruct (negb (ptr1 =? 4)%nat || (num1 >=? 65536)); [discriminate H|].
  destruct (LibC.strtoul (substr input 5 4) 16) as [num2 ptr2].
  destruct (negb (ptr2 =? 4)%nat || (num2 >=? 65536)); discriminate H.
Qed.

(** X2. Whenever the parser returns a pair, the argument is nine characters
    long with a colon at offset 4, [strtoul] consumed each four-character
    half to its end, and the pair holds the two values [strtoul] returned,
    both from 0 to 65535: the narrowing to [uint16_t] never wraps. *)
Theorem parse_argv1_success_shape (input : string) (v p : Z) :
  parse_argv1 input = inr (v, p) ->
  String.length input = 9%nat
  /\ get 4 input = Some ":"%char
  /\ LibC.strtoul (substr input 0 4) 16 = (v, 4%nat)
  /\ LibC.strtoul (substr input 5 4) 16 = (p, 4%nat)
  /\ 0 <= v < 65536 /\ 0 <= p < 65536.
Proof.
  intros H.
  destruct (parse_argv1_inr_inv input v p H) as (Hlen & Hcolon & H1 & H2 & Hv & Hp).
  repeat split; solve [assumption | apply Hv | apply Hp].
Qed.

Lemma parse_argv1_success_shape_witness :
  String.length "0x1f:2003" = 9%nat
  /\ get 4 "0x1f:2003" = Some ":"%char
  /\ LibC.strtoul (substr "0x1f:2003" 0 4) 16 = (31, 4%nat)
  /\ LibC.strtoul (substr "0x1f:2003" 5 4) 16 = (8195, 4%nat)
  /\ 0 <= 31 < 65536 /\ 0 <= 8195 < 65536.
Proof.
  apply (parse_argv1_success_shape "0x1f:2003" 31 8195). reflexivity.
Defined.

(** X3. Every character of an accepted argument, the colon apart, is a
    hexadecimal digit, a white-space character, a sign or an [x]: an
    argument holding any other character is rejected. *)
Theorem parse_argv1_accepts_only_tolerated (input : string) (v p : Z) :
  parse_argv1 input = inr (v, p) ->
  forall (i : nat) (c : ascii),
    i <> 4%nat -> get i input = Some c -> tolerated c = true.
Proof.
  intros H.
  destruct (parse_argv1_inr_inv input v p H) as (Hlen & _ & H1 & H2 & _).
  apply strtoul_consumes_tolerated in H1 as [_ H1].
  apply strtoul_consumes_tolerated in H2 as [_ H2].
  destruct input as [|c0 [|c1 [|c2 [|c3 [|c4 [|c5 [|c6 [|c7 [|c8 [|c9 rest]]]]]]]]]];
    try discriminate Hlen.
  cbn [substr substring prefix_tolerated] in H1, H2.
  repeat match goal with
         | Hc : _ && _ = true |- _ => apply andb_prop in Hc as [? Hc]
         end.
  intros i c Hi Hget.
  destruct i as [|[|[|[|[|[|[|[|[|i]]]]]]]]]; cbn [get] in Hget;
    try (injection Hget as <-; assumption);
    try contradiction; discriminate Hget.
Qed.

Lemma parse_argv1_accepts_only_tolerated_witness :
  tolerated "+" = true /\ tolerated " " = true.
Proof.
  split.
  - apply (parse_argv1_accepts_only_tolerated "+413: 203" 0x413 0x203 eq_refl
             0%nat "+"%char); [discriminate | reflexivity].
  - apply (parse_argv1_accepts_only_tolerated "+413: 203" 0x413 0x203 eq_refl
             5%nat " "%char); [discriminate | reflexivity].
Defined.

(** X4. Every pair of 16-bit numbers is denoted by some argument: written as
    four lower-case hexadecimal digits, a colon and four more digits, the
    pair is parsed back to itself. *)
Theorem parse_argv1_format_id (vendor product : Z) :
  0 <= vendor < 65536 ->
  0 <= product < 65536 ->
  parse_argv1 (format_id vendor product) = inr (vendor, product).
Proof.
  intros Hv Hp. apply parse_argv1_of_halves.
  - reflexivity.
  - reflexivity.
  - change (substring 0 4 (format_id vendor product)) with (hex4 vendor).
    apply hex_number_hex4, Hv.
  - change (substring 5 4 (format_id vendor product)) with (hex4 product).
    apply hex_number_hex4, Hp.
Qed.

Lemma parse_argv1_format_id_witness :
  format_id 0x413c 0x2003 = "413c:2003"
  /\ parse_argv1 (format_id 0x413c 0x2003) = inr (0x413c, 0x2003).
Proof.
  split; [reflexivity|].
  apply (parse_argv1_format_id 0x413c 0x2003); lia.
Defined.

(** * Further properties of the reset pipeline *)

(** Every run of [reset] is of one of six kinds, decided by the machine and
    the requested pair alone. *)
Lemma reset_cases (h : Host) (p : Z * Z) :
  (libusb_init h <> 0
   /\ forall pr mf,
        reset h p pr mf = ([call_libusb_init (libusb_init h)], inl init_failed))
  \/ (libusb_init h = 0
      /\ exists code,
           libusb_get_device_list h = DeviceListError code
           /\ forall pr mf,
                reset h p pr mf
                = ([call_libusb_init 0; call_libusb_get_device_list (Z.neg code);
                    call_libusb_exit],
                   inl enumeration_failed))
  \/ (libusb_init h = 0
      /\ exists l,
           libusb_get_device_list h = DeviceListOk l
           /\ ((forallb (passed_over p) l = true
                /\ forall pr mf,
                     reset h p pr mf
                     = ([call_libusb_init 0;
                         call_libusb_get_device_list (Z.of_nat (List.length l))]
                        ++ descriptor_reads 0 (List.length l)
                        ++ [cout "No such USB device found.";
                            call_libusb_free_device_list; call_libusb_exit],
                        inr tt))
               \/ exists pre d post,
                    l = pre ++ d :: post
                    /\ forallb (passed_over p) pre = true
                    /\ ((readable d = false
                         /\ forall pr mf,
                              reset h p pr mf
                              = ([call_libusb_init 0;
                                  call_libusb_get_device_list
                                    (Z.of_nat (List.length l))]
                                 ++ descriptor_reads 0 (List.length pre)
                                 ++ [call_libusb_get_device_descriptor
                                       (Z.of_nat (List.length pre))
                                       (fst (device_descriptor d));
                                     call_libusb_free_device_list;
                                     call_libusb_exit],
                                 inl descriptor_failed))
                        \/ (selected p d = true /\ open_result d <> 0
                            /\ forall pr mf,
                                 reset h p pr mf
                                 = (scan_events l pre
                                    ++ [call_libusb_open
                                          (Z.of_nat (List.length pre))
                                          (open_result d);
                                        call_libusb_free_device_list;
                                        call_libusb_exit],
                                    inl open_failed))
                        \/ (selected p d = true /\ open_result d = 0
                            /\ forall pr mf,
                                 reset h p pr mf
                                 = (scan_events l pre
                                    ++ inspect_events
                                         (Z.of_nat (List.length pre)) d
                                    ++ (if reset_condition pr mf
                                             (actual_product h d)
                                             (actual_manufacturer h d)
                                        then reset_events h
                                               (Z.of_nat (List.length pre)) d
                                        else [])
                                    ++ [call_libusb_close
                                          (Z.of_nat (List.length pre));
                                        call_libusb_free_device_list;
                                        call_libusb_exit],
                                    inr tt))))).
Proof.
  destruct (Z.eq_dec (libusb_init h) 0) as [Hinit|Hinit].
  2:{ left. split; [exact Hinit|]. intros pr mf.
      apply reset_init_failed, Hinit. }
  right.
  destruct (libusb_get_device_list h) as [l|code] eqn:Hlist.
  2:{ left. split; [exact Hinit|]. exists code. split; [reflexivity|].
      intros pr mf. apply reset_enumeration_failed; assumption. }
  right. split; [exact Hinit|]. exists l. split; [reflexivity|].
  destruct (scan_cases p l) as [Hall | (pre & d & post & Hl & Hpre & [Hd|Hd])].
  - left. split; [exact Hall|]. intros pr mf.
    apply reset_not_found; assumption.
  - right. exists pre, d, post. split; [exact Hl|]. split; [exact Hpre|].
    left. split; [exact Hd|]. intros pr mf. subst l.
    apply reset_descriptor_failed; assumption.
  - right. exists pre, d, post. split; [exact Hl|]. split; [exact Hpre|].
    assert (Hfound : first_match p l pre d post) by (repeat split; assumption).
    right. destruct (Z.eq_dec (open_result d) 0) as [Hopen|Hopen].
    + right. split; [exact Hd|]. split; [exact Hopen|]. intros pr mf.
      apply (reset_opened h p pr mf l pre d post Hinit Hlist Hfound Hopen).
    + left. split; [exact Hd|]. split; [exact Hopen|]. intros pr mf.
      apply (reset_open_failed h p pr mf l pre d post Hinit Hlist Hfound Hopen).
Qed.


(** The six kinds of run, named in the context. *)
Ltac reset_kinds h p :=
  destruct (reset_cases h p)
    as [(Hinit & Hrun)
       | [(Hinit & code & Hlist & Hrun)
         | (Hinit & l & Hlist
            & [(Hall & Hrun)
              | (pre & d & post & Hl & Hpre
                 & [(Hd & Hrun)
                   | [(Hd & Hopen & Hrun) | (Hd & Hopen & Hrun)]])])]].

Lemma of_nat_not_negative (n : nat) : (Z.of_nat n <? 0) = false.
Proof. apply Z.ltb_ge. lia. Qed.

(** ** Calls and the resources they need *)

Lemma used_while_held_descriptor_reads held t n : forall from,
  holds Snapshot held = true ->
  used_while_held held (descriptor_reads from n ++ t) = used_while_held held t.
Proof.
  induction n as [|n IH]; intros from Hheld; [reflexivity|].
  unfold descriptor_reads. cbn [seq map app used_while_held].
  rewrite Hheld. apply (IH (S from) Hheld).
Qed.

Lemma used_while_held_output held n :
  forallb is_cout n = true -> used_while_held held n = true.
Proof.
  induction n as [|e n IH]; intros H; [reflexivity|].
  cbn [forallb] in H. apply andb_prop in H as [He H].
  destruct e; try discriminate He. cbn [used_while_held]. apply IH, H.
Qed.

Lemma used_while_held_trailing t n :
  forallb is_cout n = true ->
  forall held, used_while_held held (t ++ n) = used_while_held held t.
Proof.
  intros Hn. induction t as [|e t IH]; intros held.
  - cbn [app used_while_held]. apply used_while_held_output, Hn.
  - destruct e; cbn [app used_while_held]; rewrite ?IH; try reflexivity;
      destruct held as [|[] held]; try reflexivity; rewrite IH; reflexivity.
Qed.

Lemma used_while_held_decided (c : bool) h k d held t :
  holds (Handle k) held = true ->
  used_while_held held ((if c then reset_events h k d else []) ++ t)
  = used_while_held held t.
Proof.
  intros Hheld. destruct c; [|reflexivity].
  unfold reset_events. destruct (reset_result d =? 0);
    cbn [app used_while_held]; rewrite Hheld; reflexivity.
Qed.

Lemma used_while_held_reset h p pr mf :
  used_while_held [] (trace (reset h p pr mf)) = true.
Proof.
  reset_kinds h p; rewrite Hrun; cbn [trace fst].
  - reflexivity.
  - reflexivity.
  - cbn [app used_while_held]. change (0 =? 0) with true. cbv beta iota.
    rewrite of_nat_not_negative.
    rewrite used_while_held_descriptor_reads by reflexivity. reflexivity.
  - cbn [app used_while_held]. change (0 =? 0) with true. cbv beta iota.
    rewrite of_nat_not_negative.
    rewrite used_while_held_descriptor_reads by reflexivity. reflexivity.
  - unfold scan_events. cbn [app used_while_held].
    change (0 =? 0) with true. cbv beta iota. rewrite of_nat_not_negative.
    rewrite used_while_held_descriptor_reads by reflexivity.
    cbn [app used_while_held]. apply Z.eqb_neq in Hopen. rewrite Hopen.
    reflexivity.
  - unfold scan_events, inspect_events. cbn [app used_while_held].
    change (0 =? 0) with true. cbv beta iota. rewrite of_nat_not_negative.
    rewrite used_while_held_descriptor_reads by reflexivity.
    assert (Hheld : holds (Handle (Z.of_nat (List.length pre)))
                      [Handle (Z.of_nat (List.length pre)); Snapshot; Session]
                    = true).
    { cbn [holds existsb resource_eqb]. rewrite Z.eqb_refl. reflexivity. }
    cbn [app used_while_held]. change (0 =? 0) with true. cbv beta iota.
    rewrite Hheld. cbn [andb].
    rewrite (used_while_held_decided _ _ _ _ _ _ Hheld).
    cbn [used_while_held]. rewrite Z.eqb_refl. reflexivity.
Qed.

(** X6. On every run, of [reset] and of [main], each libusb call is made
    while the resource it works on is held: the device list is asked of a
    live session, descriptors are read and the handle is opened while the
    list is held, strings are read and the reset is issued through a live
    handle on that very device, and nothing is used after its release. *)
Theorem calls_are_made_while_held
    (h : Host) (argv0 : string) (args : list string)
    (p : Z * Z) (product manufacturer : option string) :
  used_while_held [] (trace (reset h p product manufacturer)) = true
  /\ used_while_held [] (fst (main h argv0 args)) = true.
Proof.
  split; [apply used_while_held_reset|].
  assert (Hbody : forall a pr mf,
             used_while_held []
               (fst (try_catch (q <- lift (parse_argv1 a) ;; reset h q pr mf)))
             = true).
  { intros a pr mf. destruct (parse_argv1 a) as [e|q]; [reflexivity|].
    rewrite bind_lift_inr.
    destruct (try_catch_trace (reset h q pr mf)) as [Ht|[e Ht]]; rewrite Ht.
    - apply used_while_held_reset.
    - rewrite used_while_held_trailing by reflexivity.
      apply used_while_held_reset. }
  destruct args as [|a [|b [|c [|x args]]]]; cbn [main];
    try reflexivity; apply Hbody.
Qed.

(** ** The expected strings and the scan *)

Lemma descriptors_read_app t1 t2 :
  descriptors_read (t1 ++ t2) = descriptors_read t1 ++ descriptors_read t2.
Proof. apply flat_map_app. Qed.

Lemma opened_app t1 t2 : opened (t1 ++ t2) = opened t1 ++ opened t2.
Proof. apply flat_map_app. Qed.

Lemma descriptors_read_decided (c : bool) h k d :
  descriptors_read (if c then reset_events h k d else []) = [].
Proof.
  destruct c; [|reflexivity]. unfold reset_events.
  destruct (reset_result d =? 0); reflexivity.
Qed.

Lemma opened_decided (c : bool) h k d :
  opened (if c then reset_events h k d else []) = [].
Proof.
  destruct c; [|reflexivity]. unfold reset_events.
  destruct (reset_result d =? 0); reflexivity.
Qed.

(** X7. The expected strings steer nothing but the decision: with any
    expected strings a run ends normally or on the same exception as the run
    without them, reads the same descriptors and asks for a handle on the
    same device; and a run that resets is, event for event, the run without
    expected strings. *)
Theorem expected_strings_only_decide
    (h : Host) (p : Z * Z) (product manufacturer : option string) :
  outcome (reset h p product manufacturer) = outcome (reset h p None None)
  /\ descriptors_read (trace (reset h p product manufacturer))
     = descriptors_read (trace (reset h p None None))
  /\ opened (trace (reset h p product manufacturer))
     = opened (trace (reset h p None None))
  /\ (resets (trace (reset h p product manufacturer)) = true ->
      reset h p product manufacturer = reset h p None None).
Proof.
  reset_kinds h p;
    rewrite (Hrun product manufacturer), (Hrun None None);
    try (repeat split; reflexivity).
  cbn [trace outcome fst snd].
  rewrite !descriptors_read_app, !opened_app, !descriptors_read_decided,
    !opened_decided.
  repeat split.
  destruct (reset_condition product manufacturer _ _); [reflexivity|].
  rewrite !resets_app, resets_scan_events. cbn. intros H. discriminate H.
Qed.

(** ** The reused buffer *)

Lemma output_inspect_events k d : output (inspect_events k d) = [].
Proof. reflexivity. Qed.

(** X8. When the read of the manufacturer string fails, [manu] is what the
    buffer still holds, the product string: a run without expected strings
    prints the product string on both lines, with the same length, and a run
    with expected strings resets exactly when the product string differs
    from both of them. *)
Theorem failed_manufacturer_read_repeats_product
    (h : Host) (p : Z * Z)
    (l pre : list libusb_device) (d : libusb_device) (post : list libusb_device) :
  libusb_init h = 0 ->
  libusb_get_device_list h = DeviceListOk l ->
  first_match p l pre d post ->
  open_result d = 0 ->
  string_descriptor_ascii d 1 (iManufacturer (descriptor d)) = None ->
  let prod := actual_product h d in
  output (trace (reset h p None None))
  = [("Product: " ++ prod ++ " (length: "
        ++ decimal (String.length prod) ++ ")")%string;
     ("Manufacturer: " ++ prod ++ " (length: "
        ++ decimal (String.length prod) ++ ")")%string;
     "Resetting this device ..."]
    ++ (if reset_result d =? 0 then [] else [reset_warning])
    ++ ["Finished."]
  /\ forall E_p E_m,
       resets (trace (reset h p (Some E_p) (Some E_m))) = true
       <-> prod <> E_p /\ prod <> E_m.
Proof.
  intros Hinit Hlist Hfound Hopen Hfail prod.
  assert (Hmanu : actual_manufacturer h d = prod)
    by (unfold actual_manufacturer; rewrite Hfail; reflexivity).
  split.
  - rewrite (reset_opened h p None None l pre d post Hinit Hlist Hfound Hopen).
    cbn [trace fst reset_condition not_null andb negb orb].
    rewrite !output_app, output_scan_events, output_inspect_events.
    unfold reset_events. rewrite Hmanu. fold prod.
    destruct (reset_result d =? 0); reflexivity.
  - intros E_p E_m.
    rewrite (reset_opened h p (Some E_p) (Some E_m) l pre d post
               Hinit Hlist Hfound Hopen).
    rewrite Hmanu. fold prod. cbn [trace fst].
    unfold reset_condition. cbn [not_null string_ne andb negb orb].
    rewrite orb_false_r.
    rewrite !resets_app, resets_scan_events.
    destruct (String.eqb_spec prod E_p) as [Hp|Hp];
      destruct (String.eqb_spec prod E_m) as [Hm|Hm]; cbn [negb andb];
      rewrite ?resets_reset_events; cbn;
      (split; [intros Hr; try discriminate Hr; split; assumption
              | intros [H1 H2]; try contradiction; reflexivity]).
Qed.

Lemma failed_manufacturer_read_repeats_product_witness :
  output (trace (reset Examples.pc_wedged (0x413c, 0x2003) None None))
  = ["Product:  (length: 0)"; "Manufacturer:  (length: 0)";
     "Resetting this device ..."; reset_warning; "Finished."]
  /\ forall E_p E_m,
       resets (trace (reset Examples.pc_wedged (0x413c, 0x2003)
                        (Some E_p) (Some E_m))) = true
       <-> "" <> E_p /\ "" <> E_m.
Proof.
  exact (failed_manufacturer_read_repeats_product Examples.pc_wedged
           (0x413c, 0x2003) _ _ _ _
           eq_refl eq_refl pc_wedged_first eq_refl eq_refl).
Defined.

(** ** What [main] writes and returns *)

Lemma parse_argv1_errors (a : string) (e : exception) :
  parse_argv1 a = inl e ->
  e = FormatError \/ e = InvalidVendorId \/ e = InvalidProductId.
Proof.
  unfold parse_argv1.
  destruct (_ || _); [intros H; injection H as <-; auto|].
  destruct (LibC.strtoul (substr a 0 4) 16) as [num1 ptr1].
  destruct (_ || _); [intros H; injection H as <-; auto|].
  destruct (LibC.strtoul (substr a 5 4) 16) as [num2 ptr2].
  destruct (_ || _); [intros H; injection H as <-; auto|].
  intros H. discriminate H.
Qed.

Lemma usage_is_no_diagnostic (argv0 : string) : usage argv0 <> "Error occured.".
Proof. unfold usage. cbn [append]. discriminate. Qed.

Lemma output_decided_no_diagnostic (c : bool) h k d :
  ~ In "Error occured." (output (if c then reset_events h k d else [])).
Proof.
  destruct c; [|intros []]. unfold reset_events.
  destruct (reset_result d =? 0); cbn; intuition discriminate.
Qed.

(** A run with one or three arguments: it returns 0 and writes no
    diagnostic, or returns 1 and writes the diagnostic and nothing else. *)
Lemma main_writes_diagnostic_iff_fatal h argv0 a expected :
  (snd (main h argv0 (command_line a expected)) = 0
   /\ ~ In "Error occured." (output (fst (main h argv0 (command_line a expected)))))
  \/ (snd (main h argv0 (command_line a expected)) = 1
      /\ exists msg,
           In msg fatal_messages
           /\ output (fst (main h argv0 (command_line a expected)))
              = ["Error occured."; ("Detail: " ++ msg)%string]).
Proof.
  destruct (parse_argv1 a) as [e|p] eqn:Hparse.
  { right.
    assert (Hmain : main h argv0 (command_line a expected) = (diagnostic e, 1)).
    { destruct expected as [[ep em]|]; unfold command_line, main;
        rewrite Hparse; reflexivity. }
    rewrite Hmain. split; [reflexivity|]. exists (what e).
    split; [|reflexivity].
    destruct (parse_argv1_errors a e Hparse) as [-> | [-> | ->]]; cbn; auto. }
  rewrite (main_command_line h argv0 a expected p Hparse).
  reset_kinds h p; rewrite Hrun; cbn [try_catch fst snd].
  - right. split; [reflexivity|]. exists (what init_failed).
    split; [cbn; auto 10 | reflexivity].
  - right. split; [reflexivity|]. exists (what enumeration_failed).
    split; [cbn; auto 10 | reflexivity].
  - left. split; [reflexivity|].
    rewrite !output_app, output_descriptor_reads. cbn.
    intros [H|[]]. discriminate H.
  - right. split; [reflexivity|]. exists (what descriptor_failed).
    split; [cbn; auto 10|].
    rewrite <- !app_assoc, !output_app, output_descriptor_reads. reflexivity.
  - right. split; [reflexivity|]. exists (what open_failed).
    split; [cbn; auto 10|].
    rewrite <- !app_assoc, !output_app, output_scan_events. reflexivity.
  - left. split; [reflexivity|].
    rewrite !output_app, output_scan_events, output_inspect_events.
    cbn [app]. rewrite app_nil_r. apply output_decided_no_diagnostic.
Qed.

(** X9. Whatever the arguments and the machine, [main] returns 0 or 1.  When
    it returns 1, standard output holds two lines and no more,
    "Error occured." and "Detail: " followed by one of the seven messages of
    the parser and of the USB layer, never the range error of the device
    list.  When it returns 0, the line "Error occured." was not written. *)
Theorem main_exit_code_and_diagnostic
    (h : Host) (argv0 : string) (args : list string) :
  (snd (main h argv0 args) = 0
   /\ ~ In "Error occured." (output (fst (main h argv0 args))))
  \/ (snd (main h argv0 args) = 1
      /\ exists msg,
           In msg fatal_messages
           /\ output (fst (main h argv0 args))
              = ["Error occured."; ("Detail: " ++ msg)%string]).
Proof.
  assert (Husage : snd ([cout (usage argv0)], 0) = 0
                   /\ ~ In "Error occured."
                          (output (fst ([cout (usage argv0)], 0)))).
  { split; [reflexivity|]. cbn. intros [H|[]].
    apply (usage_is_no_diagnostic argv0 H). }
  destruct args as [|a [|b [|c [|x args]]]]; cbn [main];
    try (left; exact Husage).
  - apply (main_writes_diagnostic_iff_fatal h argv0 a None).
  - apply (main_writes_diagnostic_iff_fatal h argv0 a (Some (b, c))).
Qed.

(** ** When libusb is touched *)

Lemma reset_starts_with_init h p pr mf :
  exists t, trace (reset h p pr mf) = call_libusb_init (libusb_init h) :: t.
Proof.
  reset_kinds h p; rewrite Hrun; cbn [trace fst]; try rewrite Hinit;
    unfold scan_events; cbn [app]; eexists; reflexivity.
Qed.

Lemma try_catch_starts_like (m : M unit) e t :
  trace m = e :: t -> exists t', fst (try_catch m) = e :: t'.
Proof.
  intros Hm. destruct (try_catch_trace m) as [Ht|[x Ht]]; rewrite Ht, Hm.
  - exists t. reflexivity.
  - exists (t ++ diagnostic x). reflexivity.
Qed.

(** X10. [main] calls into libusb exactly when it is given one or three
    arguments of which the first parses: its first event is then
    [libusb_init].  In every other case, a wrong number of arguments or an
    identifier the parser rejects, it writes to standard output and makes
    no libusb call at all. *)
Theorem main_touches_libusb_iff_arguments_valid
    (h : Host) (argv0 : string) (args : list string) :
  (exists a expected p t,
      args = command_line a expected
      /\ parse_argv1 a = inr p
      /\ fst (main h argv0 args) = call_libusb_init (libusb_init h) :: t)
  \/ ((forall a expected p,
          args = command_line a expected -> parse_argv1 a <> inr p)
      /\ forallb is_cout (fst (main h argv0 args)) = true).
Proof.
  assert (Hvalid : forall a expected,
             (exists p t,
                 parse_argv1 a = inr p
                 /\ fst (main h argv0 (command_line a expected))
                    = call_libusb_init (libusb_init h) :: t)
             \/ ((forall p, parse_argv1 a <> inr p)
                 /\ forallb is_cout (fst (main h argv0 (command_line a expected)))
                    = true)).
  { intros a expected. destruct (parse_argv1 a) as [e|p] eqn:Hparse.
    - right. split; [intros p H; discriminate H|].
      destruct expected as [[ep em]|]; unfold command_line, main;
        rewrite Hparse; reflexivity.
    - left. exists p.
      rewrite (main_command_line h argv0 a expected p Hparse).
      destruct (reset_starts_with_init h p (expected_product expected)
                  (expected_manufacturer expected)) as [t Ht].
      destruct (try_catch_starts_like _ _ _ Ht) as [t' Ht'].
      exists t'. split; [reflexivity | exact Ht']. }
  assert (Hshape : forall a expected,
             args = command_line a expected ->
             (List.length args = 1 \/ List.length args = 3)%nat).
  { intros a [[ep em]|] ->; [right|left]; reflexivity. }
  destruct args as [|a [|b [|c [|x args]]]];
    try (right; split;
         [intros a' expected p Hargs; apply Hshape in Hargs; cbn in Hargs; lia
         | reflexivity]).
  - destruct (Hvalid a None) as [(p & t & Hp & Ht) | [Hno Hout]].
    + left. exists a, None, p, t. repeat split; assumption.
    + right. split; [|exact Hout].
      intros a' [[ep em]|] p Hargs; inversion Hargs; subst. apply Hno.
  - destruct (Hvalid a (Some (b, c))) as [(p & t & Hp & Ht) | [Hno Hout]].
    + left. exists a, (Some (b, c)), p, t. repeat split; assumption.
    + right. split; [|exact Hout].
      intros a' [[ep em]|] p Hargs; inversion Hargs; subst. apply Hno.
Qed.

(** ** The order of the scan on every run *)

Lemma indices_S (from n : nat) :
  indices from (S n) = indices from n ++ [Z.of_nat (from + n)].
Proof. unfold indices. rewrite seq_S, map_app. reflexivity. Qed.

(** X11. On every run, whatever fails, the descriptors requested are those
    of the devices 0, 1, ..., [m - 1] of the snapshot, in this order and
    once each, for some [m] not above the number of devices: the scan never
    skips a device, never goes back and never reads past the list. *)
Theorem descriptors_are_read_in_snapshot_order
    (h : Host) (p : Z * Z) (product manufacturer : option string) :
  exists m : nat,
    (m <= device_count h)%nat
    /\ descriptors_read (trace (reset h p product manufacturer)) = indices 0 m.
Proof.
  unfold device_count.
  reset_kinds h p; rewrite Hrun, ?Hlist; cbn [trace fst].
  - exists O. split; [lia | reflexivity].
  - exists O. split; [lia | reflexivity].
  - exists (List.length l). split; [lia|].
    rewrite !descriptors_read_app, descriptors_read_descriptor_reads.
    cbn [descriptors_read flat_map app]. apply app_nil_r.
  - exists (S (List.length pre)). split.
    + subst l. rewrite length_app. cbn. lia.
    + rewrite !descriptors_read_app, descriptors_read_descriptor_reads, indices_S.
      reflexivity.
  - exists (S (List.length pre)). split.
    + subst l. rewrite length_app. cbn. lia.
    + unfold scan_events.
      rewrite !descriptors_read_app, descriptors_read_descriptor_reads.
      cbn [descriptors_read flat_map app]. apply app_nil_r.
  - exists (S (List.length pre)). split.
    + subst l. rewrite length_app. cbn. lia.
    + unfold scan_events.
      rewrite !descriptors_read_app, descriptors_read_descriptor_reads,
        descriptors_read_decided.
      cbn [descriptors_read flat_map app]. apply app_nil_r.
Qed.

(** ** The healthy device *)

(** X12. In conditional mode, when the matching device returns the expected
    product string or the expected manufacturer string, [main] opens it,
    reads the two strings, closes it, writes nothing at all and returns
    0. *)
Theorem healthy_device_is_left_alone
    (h : Host) (argv0 a E_p E_m : string) (p : Z * Z)
    (l pre : list libusb_device) (d : libusb_device) (post : list libusb_device) :
  parse_argv1 a = inr p ->
  libusb_init h = 0 ->
  libusb_get_device_list h = DeviceListOk l ->
  first_match p l pre d post ->
  open_result d = 0 ->
  actual_product h d = E_p \/ actual_manufacturer h d = E_m ->
  let k := Z.of_nat (List.length pre) in
  main h argv0 [a; E_p; E_m]
  = (scan_events l pre ++ inspect_events k d
     ++ [call_libusb_close k; call_libusb_free_device_list; call_libusb_exit],
     0)
  /\ output (fst (main h argv0 [a; E_p; E_m])) = [].
Proof.
  intros Hparse Hinit Hlist Hfound Hopen Hsame k.
  assert (Hmain : main h argv0 [a; E_p; E_m]
    = (scan_events l pre ++ inspect_events k d
       ++ [call_libusb_close k; call_libusb_free_device_list; call_libusb_exit],
       0)).
  { change [a; E_p; E_m] with (command_line a (Some (E_p, E_m))).
    rewrite (main_command_line h argv0 a (Some (E_p, E_m)) p Hparse).
    cbn [expected_product expected_manufacturer option_map fst snd].
    rewrite (reset_opened h p _ _ l pre d post Hinit Hlist Hfound Hopen).
    assert (Hcond : reset_condition (Some E_p) (Some E_m)
                      (actual_product h d) (actual_manufacturer h d) = false).
    { unfold reset_condition. cbn [not_null string_ne andb negb orb].
      rewrite orb_false_r.
      destruct Hsame as [Hs|Hs]; rewrite Hs, String.eqb_refl;
        cbn [negb andb]; [reflexivity | apply andb_false_r]. }
    rewrite Hcond. reflexivity. }
  split; [exact Hmain|].
  rewrite Hmain. cbn [fst].
  rewrite !output_app, output_scan_events, output_inspect_events. reflexivity.
Qed.

Lemma healthy_device_is_left_alone_witness :
  main Examples.pc "usb_reset" ["413c:2003"; "Dell USB Keyboard"; "Dell"]
  = ([call_libusb_init 0; call_libusb_get_device_list 3;
      call_libusb_get_device_descriptor 0 0;
      call_libusb_get_device_descriptor 1 0;
      call_libusb_open 1 0;
      call_libusb_get_string_descriptor_ascii 1 2;
      call_libusb_get_string_descriptor_ascii 1 1;
      call_libusb_close 1; call_libusb_free_device_list; call_libusb_exit],
     0)
  /\ output (fst (main Examples.pc "usb_reset"
                    ["413c:2003"; "Dell USB Keyboard"; "Dell"])) = [].
Proof.
  refine (healthy_device_is_left_alone Examples.pc "usb_reset" "413c:2003"
            "Dell USB Keyboard" "Dell" (0x413c, 0x2003) _ _ _ _
            eq_refl eq_refl eq_refl pc_keyboard_first eq_refl _).
  left. reflexivity.
Defined.

(** ** The reset that succeeds *)

(** X13. In either mode, when the reset is attempted and
    [libusb_reset_device] returns 0, [main] writes four lines and no
    warning (the product string and the manufacturer string, each with its
    length, "Resetting this device ..." and "Finished."), the reset call
    standing between the third and the fourth, and returns 0. *)
Theorem successful_reset_writes_four_lines
    (h : Host) (argv0 a : string) (expected : option (string * string))
    (p : Z * Z)
    (l pre : list libusb_device) (d : libusb_device) (post : list libusb_device) :
  parse_argv1 a = inr p ->
  libusb_init h = 0 ->
  libusb_get_device_list h = DeviceListOk l ->
  first_match p l pre d post ->
  open_result d = 0 ->
  reset_condition (expected_product expected) (expected_manufacturer expected)
    (actual_product h d) (actual_manufacturer h d) = true ->
  reset_result d = 0 ->
  let k := Z.of_nat (List.length pre) in
  main h argv0 (command_line a expected)
  = (scan_events l pre ++ inspect_events k d
     ++ [cout ("Product: " ++ actual_product h d ++ " (length: "
                 ++ decimal (String.length (actual_product h d)) ++ ")")%string;
         cout ("Manufacturer: " ++ actual_manufacturer h d ++ " (length: "
                 ++ decimal (String.length (actual_manufacturer h d))
                 ++ ")")%string;
         cout "Resetting this device ...";
         call_libusb_reset_device k 0;
         cout "Finished.";
         call_libusb_close k; call_libusb_free_device_list; call_libusb_exit],
     0)
  /\ output (fst (main h argv0 (command_line a expected)))
     = [("Product: " ++ actual_product h d ++ " (length: "
           ++ decimal (String.length (actual_product h d)) ++ ")")%string;
        ("Manufacturer: " ++ actual_manufacturer h d ++ " (length: "
           ++ decimal (String.length (actual_manufacturer h d)) ++ ")")%string;
        "Resetting this device ...";
        "Finished."].
Proof.
  intros Hparse Hinit Hlist Hfound Hopen Hcond Hrc k.
  rewrite (main_command_line h argv0 a expected p Hparse).
  rewrite (reset_opened h p _ _ l pre d post Hinit Hlist Hfound Hopen).
  rewrite Hcond. unfold reset_events. rewrite Hrc.
  cbn [Z.eqb app try_catch fst]. split; [reflexivity|].
  rewrite !output_app, output_scan_events, output_inspect_events. reflexivity.
Qed.

Lemma successful_reset_writes_four_lines_witness :
  output (fst (main Examples.pc "usb_reset"
                 ["413c:2003"; "Dell Keyboard"; "DELL"]))
  = ["Product: Dell USB Keyboard (length: 17)";
     "Manufacturer: Dell (length: 4)";
     "Resetting this device ...";
     "Finished."].
Proof.
  exact (proj2 (successful_reset_writes_four_lines Examples.pc "usb_reset"
                  "413c:2003" (Some ("Dell Keyboard", "DELL")) (0x413c, 0x2003)
                  _ _ _ _
                  eq_refl eq_refl eq_refl pc_keyboard_first eq_refl eq_refl
                  eq_refl)).
Defined.
